(** * horizon-pkg-fetch: the fetch and verify pipeline of fetch.go

    A shallow embedding of [fetch.go].  The Go functions become Rocq
    functions over an explicit [World] (the files on disk, the directories
    made, the HTTP requests issued so far and the signatures handed to the
    verifier so far).  Everything the file obtains from other packages
    (net/http, crypto/sha256, encoding/json, path, path/filepath, the
    anax policy verifier and the operating system's refusals) is a field of
    a [Host] record, so every statement below is about all hosts.

    A call either returns or panics (a nil pointer dereference); the
    [outcome] type keeps the two apart. *)

From stdpp Require Import gmap strings list fin_maps.
From Stdlib Require Import ZArith Strings.Byte Strings.Ascii.

Local Open Scope string_scope.

(** ** Data read from the manifest (package horizonpkg) *)

(** Modelled from the spec: the types of package horizonpkg are declared
    outside fetch.go; these records hold the fields that fetch.go reads
    ([source.URL], [part.ID], [part.Bytes], [part.Sha256sum],
    [part.Signatures], [part.Sources], [pkg.ID], [pkg.Meta.Provides.Images],
    [pkg.Parts]). *)
Record PartSource := { URL : string }.

(** Modelled from the spec: horizonpkg.DockerImagePart, by the fields read. *)
Record DockerImagePart := {
  PartID : string;
  Bytes : Z;                       (* int64 *)
  Sha256sum : string;
  Signatures : list string;
  Sources : list PartSource
}.

(** Modelled from the spec: horizonpkg.Pkg, by the fields read. *)
Record Pkg := {
  ID : string;
  Images : gmap string string;     (* pkg.Meta.Provides.Images *)
  Parts : gmap string DockerImagePart
}.

(** ** Errors *)

(** The errno of a refused system call. *)
Inductive errno := EEXIST | ENOTEMPTY | ENOENT | EACCES | EIO.

(** Modelled from the spec: the error structs of package fetcherrors are
    declared outside fetch.go; each kind is built in fetch.go from a
    message and an internal error, and that is what the constructors
    carry.  A message is kept as the format string of the source together
    with its operands, unrendered. *)
Inductive error : Type :=
  | LibError (origin detail : string)          (* an error value made by a library call *)
  | PathError (op path : string) (e : errno)   (* *os.PathError *)
  | ErrInvalid                                 (* os.ErrInvalid: use of a nil *os.File *)
  | Errorf (format : string) (operands : list operand)
  | VerificationError (msg : string)
  | PkgMetaError (format : string) (operands : list operand) (InternalError : error)
  | PkgSourceError (format : string) (operands : list operand) (InternalError : error)
  | PkgPrecheckError (format : string) (operands : list operand) (InternalError : error)
  | PkgSourceFetchError (format : string) (operands : list operand) (InternalError : error)
  | PkgSourceFetchAuthError (format : string) (operands : list operand) (InternalError : error)
  | PkgSignatureVerificationError (format : string) (operands : list operand) (InternalError : error)
with operand : Type :=
  | OStr (s : string)
  | OInt (n : Z)
  | OErr (e : option error)        (* an error value, nil when [None] *)
  | OSources (l : list PartSource)
  | OPart (p : DockerImagePart)
  | ORecorder (Errors : gmap string error).   (* &fetchErrs, printed by its String method *)

Definition errno_IsExist (e : errno) : bool :=
  match e with EEXIST | ENOTEMPTY => true | _ => false end.

(** os.IsExist *)
Definition os_IsExist (err : error) : bool :=
  match err with PathError _ _ e => errno_IsExist e | _ => false end.

(** A call returns a value or panics. *)
Inductive outcome (A : Type) : Type :=
  | Returned (a : A)
  | Panicked.
Arguments Returned {A} a.
Arguments Panicked {A}.

(** ** The host: what fetch.go gets from other packages *)

Record Request := { reqURL : string; BasicAuth : option (string * string) }.

(** [Body] is what the body stream delivers; [BodyErr] is the read error
    that ends the stream, if it does not end in EOF. *)
Record Response := {
  StatusCode : Z;
  Body : list byte;
  BodyErr : option error
}.

(** client.Do: a response and no error, or an error; with an error the
    response is nil ([None]) except when a redirect policy failed. *)
Inductive do_result :=
  | DoOk (response : Response)
  | DoFail (response : option Response) (err : error).

Inductive fsop :=
  | OpOpenFile | OpOpen | OpRead | OpWrite | OpRemove | OpStat | OpWriteFile | OpMkdirAll.

Record Host := {
  (* http.NewRequest(http.MethodGet, url, nil): its error, if any *)
  NewRequest : string -> option error;
  (* client.Do of a client made by httpClientFactory with this timeout override *)
  client_Do : option Z -> Request -> do_result;
  (* crypto/sha256 *)
  sha256_Sum : list byte -> list byte;
  (* policy.VerifyWorkload(pubKeyFile, signature, hasher, userKeys) *)
  VerifyWorkload : string -> string -> list byte -> string -> bool * option error;
  (* json.Unmarshal into a horizonpkg.Pkg *)
  json_Unmarshal : list byte -> Pkg + error;
  (* path.Join of two elements *)
  path_Join : string -> string -> string;
  (* filepath.Abs *)
  filepath_Abs : string -> string + error;
  (* the operating system refusing an operation on a path; a refused write
     writes no byte *)
  fs_fault : fsop -> string -> option errno
}.

(** ** The world a call runs in *)

Record World := {
  files : gmap string (list byte);
  dirs : gset string;
  requests : list (option Z * Request);   (* oldest first *)
  sigchecks : list string                 (* oldest first *)
}.

Definition set_files (f : gmap string (list byte) -> gmap string (list byte)) (w : World) : World :=
  {| files := f (files w); dirs := dirs w; requests := requests w; sigchecks := sigchecks w |}.

Definition add_dir (p : string) (w : World) : World :=
  {| files := files w; dirs := {[p]} ∪ dirs w; requests := requests w; sigchecks := sigchecks w |}.

Definition log_request (t : option Z) (r : Request) (w : World) : World :=
  {| files := files w; dirs := dirs w; requests := (requests w ++ [(t, r)])%list; sigchecks := sigchecks w |}.

Definition log_sigcheck (sig : string) (w : World) : World :=
  {| files := files w; dirs := dirs w; requests := requests w; sigchecks := (sigchecks w ++ [sig])%list |}.

(** ** Operating system calls *)

Section Filesystem.
Variable H : Host.

(** os.OpenFile(path, os.O_RDWR|os.O_CREATE, 0600): an existing file is
    opened as it is (no O_EXCL, no O_TRUNC), a missing one is created
    empty.  The result is the open file, named by its path, or nil. *)
Definition os_OpenFile (path : string) (w : World) : (option string * option error) * World :=
  match fs_fault H OpOpenFile path with
  | Some e => ((None, Some (PathError "open" path e)), w)
  | None =>
      match files w !! path with
      | Some _ => ((Some path, None), w)
      | None => ((Some path, None), set_files <[path := []]> w)
      end
  end.

(** os.Open (read only): the open file, named by its path, or the error. *)
Definition os_Open (path : string) (w : World) : string + error :=
  match fs_fault H OpOpen path with
  | Some e => inr (PathError "open" path e)
  | None =>
      match files w !! path with
      | Some _ => inl path
      | None => inr (PathError "open" path ENOENT)
      end
  end.

(** Reading an open file to its end, as io.Copy(hasher, partFile) does. *)
Definition read_all (f : string) (w : World) : list byte + error :=
  match fs_fault H OpRead f with
  | Some e => inr (PathError "read" f e)
  | None => inl (default [] (files w !! f))
  end.

(** os.Remove *)
Definition os_Remove (path : string) (w : World) : option error * World :=
  match fs_fault H OpRemove path with
  | Some e => (Some (PathError "remove" path e), w)
  | None =>
      match files w !! path with
      | Some _ => (None, set_files (delete path) w)
      | None => (Some (PathError "remove" path ENOENT), w)
      end
  end.

(** os.Stat, of which only Size() is used. *)
Definition os_Stat (path : string) (w : World) : Z + error :=
  match fs_fault H OpStat path with
  | Some e => inr (PathError "stat" path e)
  | None =>
      match files w !! path with
      | Some c => inl (Z.of_nat (length c))
      | None => inr (PathError "stat" path ENOENT)
      end
  end.

(** ioutil.WriteFile(path, content, 0600): the file is opened with
    O_WRONLY|O_CREATE|O_TRUNC, which creates or empties it, and then
    written.  A refused open leaves the files as they were; a refused
    write leaves the file created or emptied. *)
Definition ioutil_WriteFile (path : string) (content : list byte) (w : World) : option error * World :=
  match fs_fault H OpWriteFile path with
  | Some e => (Some (PathError "open" path e), w)
  | None =>
      match fs_fault H OpWrite path with
      | Some e => (Some (PathError "write" path e), set_files <[path := []]> w)
      | None => (None, set_files <[path := content]> w)
      end
  end.

(** os.MkdirAll(path, 0700); an existing directory is no error. *)
Definition os_MkdirAll (path : string) (w : World) : option error * World :=
  match fs_fault H OpMkdirAll path with
  | Some e => (Some (PathError "mkdir" path e), w)
  | None => (None, add_dir path w)
  end.

(** io.Copy(partFile, response.Body).  The file is written from its
    start: every open file here is freshly opened.  Bytes of an older,
    longer content stay behind the written ones.  The copy reads from the
    body before it writes, so a body that delivers no byte reaches no
    write: the copy then ends as the stream ends, also on a nil file and
    on a file the system refuses to write.  A body with bytes fails on a
    nil file with os.ErrInvalid. *)
Definition io_Copy (partFile : option string) (response : Response) (w : World)
  : (Z * option error) * World :=
  match partFile with
  | None =>
      match Body response with
      | [] => ((0%Z, BodyErr response), w)
      | _ :: _ => ((0%Z, Some ErrInvalid), w)
      end
  | Some name =>
      match fs_fault H OpWrite name, Body response with
      | Some e, _ :: _ => ((0%Z, Some (PathError "write" name e)), w)
      | _, _ =>
          let old := default [] (files w !! name) in
          let body := Body response in
          ((Z.of_nat (length body), BodyErr response),
           set_files <[name := (body ++ drop (length body) old)%list]> w)
      end
  end.
End Filesystem.

(** ** String helpers of the standard library *)

Definition hexdigit (n : N) : ascii :=
  match n with
  | 0 => "0" | 1 => "1" | 2 => "2" | 3 => "3" | 4 => "4" | 5 => "5" | 6 => "6" | 7 => "7"
  | 8 => "8" | 9 => "9" | 10 => "a" | 11 => "b" | 12 => "c" | 13 => "d" | 14 => "e" | _ => "f"
  end%N%char.

(** fmt.Sprintf("%x", string(digest)): two lower-case hex digits a byte. *)
Fixpoint hex (l : list byte) : string :=
  match l with
  | [] => ""
  | b :: l' =>
      let n := Byte.to_N b in
      String (hexdigit (n / 16)) (String (hexdigit (n mod 16)) (hex l'))
  end.

(** strings.Split(s, "/") *)
Fixpoint split_slash (s : string) : list string :=
  match s with
  | EmptyString => [""]
  | String c s' =>
      if Ascii.eqb c "/"%char then "" :: split_slash s'
      else match split_slash s' with
           | [] => [String c ""]
           | x :: xs => String c x :: xs
           end
  end.

(** strings.Join(l, "/") *)
Fixpoint join_slash (l : list string) : string :=
  match l with
  | [] => ""
  | [x] => x
  | x :: xs => x ++ "/" ++ join_slash xs
  end.

(** A hash.Hash is given by the bytes written to it; Sum is the host's
    SHA-256 of them. *)
Definition hasher := list byte.

Record partFetchFailure := { HTTPStatusCode : Z; PartURL : string }.

(** How the loop over a part's sources ends: by a return statement, or by
    running out of sources with [fetchFailure] as the last iteration left it. *)
Inductive loop_end :=
  | Return (err : option error)
  | Exhausted (fetchFailure : option partFetchFailure).

Section Fetch.
Variable H : Host.

(** The loop of authenticatedRequest over authCreds, in the order the
    range statement visits the map. *)
Fixpoint basicAuthFor (pURL : string) (authCreds : list (string * gmap string string))
  : option (string * string) :=
  match authCreds with
  | [] => None
  | (k, v) :: rest =>
      if String.prefix k pURL then
        let username := default "" (v !! "username") in
        let password := default "" (v !! "password") in
        if bool_decide (username ≠ "") && bool_decide (password ≠ "")
        then Some (username, password)
        else basicAuthFor pURL rest
      else basicAuthFor pURL rest
  end.

(** authenticatedRequest: the GET request, with basic auth when a
    credential matches. *)
Definition authenticatedRequest (pURL : string) (authCreds : list (string * gmap string string))
  : Request + error :=
  match NewRequest H pURL with
  | Some err => inr err
  | None => inl {| reqURL := pURL; BasicAuth := basicAuthFor pURL authCreds |}
  end.

(** verifySignatureWithAnyKey: each signature handed to the verifier is
    logged in the world. *)
Fixpoint verifySignatureWithAnyKey (primarySigningKey userKeysDir : string) (hs : hasher)
    (signatures : list string) (w : World) : option error * World :=
  match signatures with
  | [] => (Some (VerificationError ""), w)
  | sig :: rest =>
      let w := log_sigcheck sig w in
      match VerifyWorkload H primarySigningKey sig hs userKeysDir with
      | (_, Some err) => (Some err, w)
      | (true, None) => (None, w)
      | (false, None) => verifySignatureWithAnyKey primarySigningKey userKeysDir hs rest w
      end
  end.

(** The writeFile closure of fetchPkgMeta. *)
Definition writeFile (destinationDir fileName : string) (content : list byte) (w : World)
  : (string + error) * World :=
  let destFilePath := path_Join H destinationDir fileName in
  match ioutil_WriteFile H destFilePath content w with
  | (Some err, w) => (inr (PkgMetaError "Failed to write file %v" [OStr destFilePath] err), w)
  | (None, w) => (inl destFilePath, w)
  end.

(** A client is given by the timeout override its factory was called
    with.  The error of ioutil.ReadAll is dropped by the source; writing
    into the hasher cannot fail. *)
Definition fetchPkgMeta (client : option Z) (authCreds : list (string * gmap string string))
    (primarySigningKey userKeysDir pkgURL pkgURLSignature destinationDir : string) (w : World)
  : (Pkg + error) * World :=
  match authenticatedRequest pkgURL authCreds with
  | inr err => (inr err, w)
  | inl req =>
      let w := log_request client req w in
      match client_Do H client req with
      | DoFail _ err => (inr err, w)
      | DoOk response =>
          if bool_decide (StatusCode response ≠ 200%Z) then
            (inr (PkgMetaError "Unexpected status code in response to Horizon Pkg fetch: %v"
                    [OInt (StatusCode response)]
                    (Errorf "Failed to fetch Pkg meta from %v" [OStr pkgURL])), w)
          else
            let rawBody := Body response in
            let hs : hasher := rawBody in
            match verifySignatureWithAnyKey primarySigningKey userKeysDir hs [pkgURLSignature] w with
            | (Some err, w) =>
                (inr (PkgMetaError "Pkg metadata failed cryptographic verification: %v"
                        [OErr (Some err)]
                        (Errorf "Failure processing Pkg meta: %v and signature: %v"
                           [OStr pkgURL; OStr pkgURLSignature])), w)
            | (None, w) =>
                match json_Unmarshal H rawBody with
                | inr err => (inr err, w)
                | inl pkg =>
                    match writeFile destinationDir (ID pkg ++ ".json") rawBody w with
                    | (inr err, w) => (inr err, w)
                    | (inl _, w) => (inl pkg, w)
                    end
                end
            end
      end
  end.

(** The range over pkg.Parts stops at the first part without an entry in
    Images; parts are visited in the order of the list. *)
Fixpoint precheckParts (images : gmap string string) (parts : list (string * DockerImagePart))
  : option error :=
  match parts with
  | [] => None
  | (_, part) :: rest =>
      match images !! PartID part with
      | None =>
          Some (Errorf "Error in pkg file: Meta.Provides is expected to contain metadata about each part and it is missing info about part %v" [OPart part])
      | Some _ => precheckParts images rest
      end
  end.

Definition precheckPkgParts (pkg : Pkg) : option error :=
  precheckParts (Images pkg) (map_to_list (Parts pkg)).

(** The tryRemove closure of fetchPkgPart: f.Close() on a nil file only
    returns an error, f.Name() on a nil file panics. *)
Definition tryRemove (f : option string) (w : World) : outcome (option error) * World :=
  match f with
  | None => (Panicked, w)
  | Some name => let '(err, w) := os_Remove H name w in (Returned err, w)
  end.

(** Lines 208 to 215: a source that begins with a slash is taken
    relative to the base of the Pkg URL. *)
Definition resolveURL (pkgURLBase : string) (source : PartSource) : string :=
  if String.prefix "/" (URL source) then pkgURLBase ++ URL source else URL source.

(** The for loop of fetchPkgPart. *)
Fixpoint trySources (client : option Z) (authCreds : list (string * gmap string string))
    (pkgURLBase partPath : string) (expectedBytes : Z) (sources : list PartSource)
    (partFile : option string) (fetchFailure : option partFetchFailure) (w : World)
  : outcome loop_end * World :=
  match sources with
  | [] => (Returned (Exhausted fetchFailure), w)
  | source :: rest =>
      let pURL := resolveURL pkgURLBase source in
      let fetchFailure : option partFetchFailure := None in
      match authenticatedRequest pURL authCreds with
      | inr err => (Returned (Return (Some err)), w)
      | inl req =>
          let w := log_request client req w in
          match client_Do H client req with
          | DoFail None _ => (Panicked, w)         (* response.StatusCode of a nil response *)
          | DoFail (Some response) _ =>
              let fetchFailure := Some {| HTTPStatusCode := StatusCode response; PartURL := pURL |} in
              trySources client authCreds pkgURLBase partPath expectedBytes rest partFile fetchFailure w
          | DoOk response =>
              if bool_decide (StatusCode response ≠ 200%Z) then
                let fetchFailure := Some {| HTTPStatusCode := StatusCode response; PartURL := pURL |} in
                trySources client authCreds pkgURLBase partPath expectedBytes rest partFile fetchFailure w
              else
                match io_Copy H partFile response w with
                | ((_, Some err), w) =>
                    (Returned (Return (Some
                       (Errorf "IO copy from HTTP response body failed on part: %v. Error: %v"
                          [OStr partPath; OErr (Some err)]))), w)
                | ((bytes, None), w) =>
                    if bool_decide (bytes ≠ expectedBytes) then
                      match tryRemove partFile w with
                      | (Panicked, w) => (Panicked, w)
                      | (Returned _, w) =>
                          match os_OpenFile H partPath w with
                          | ((_, Some openErr), w) => (Returned (Return (Some openErr)), w)
                          | ((partFile, None), w) =>
                              trySources client authCreds pkgURLBase partPath expectedBytes rest
                                partFile fetchFailure w
                          end
                      end
                    else (Returned (Return None), w)
                end
          end
      end
  end.

(** The statements of fetchPkgPart after the loop. *)
Definition exhausted (partPath : string) (sources : list PartSource)
    (fetchFailure : option partFetchFailure) : error :=
  let internalError :=
    Errorf "Part could not be fetched: %v from any of its sources: %v"
      [OStr partPath; OSources sources] in
  match fetchFailure with
  | Some ff =>
      if (HTTPStatusCode ff =? 401)%Z || (HTTPStatusCode ff =? 403)%Z then
        PkgSourceFetchAuthError
          "Authentication or Authorization error attempting to fetch part from URL: %v. HTTP Status code: %v"
          [OStr (PartURL ff); OInt (HTTPStatusCode ff)] internalError
      else
        PkgSourceFetchError "Error when fetching part from URL: %v. HTTP Status code: %v"
          [OStr (PartURL ff); OInt (HTTPStatusCode ff)] internalError
  | None => PkgSourceFetchError "Failed to complete fetch." [] internalError
  end.

(** Lines 204 to 267 of fetchPkgPart: the loop, then the error for sources
    that ran out. *)
Definition download (client : option Z) (authCreds : list (string * gmap string string))
    (pkgURLBase partPath : string) (expectedBytes : Z) (sources : list PartSource)
    (partFile : option string) (w : World) : outcome (option error) * World :=
  match trySources client authCreds pkgURLBase partPath expectedBytes sources partFile None w with
  | (Panicked, w) => (Panicked, w)
  | (Returned (Return err), w) => (Returned err, w)
  | (Returned (Exhausted fetchFailure), w) =>
      (Returned (Some (exhausted partPath sources fetchFailure)), w)
  end.

(** Lines 197 to 201: close, open again, give up when that fails. *)
Definition reopen_then (k : option string -> World -> outcome (option error) * World)
    (partPath : string) (w : World) : outcome (option error) * World :=
  match os_OpenFile H partPath w with
  | ((_, Some openErr), w) => (Returned (Some openErr), w)
  | ((partFile, None), w) => k partFile w
  end.

(** fetchPkgPart: open or create the part file (lines 174 to 202, with the
    branch for an open refused because the file exists), then download. *)
Definition fetchPkgPart (client : option Z) (authCreds : list (string * gmap string string))
    (pkgURLBase partPath : string) (expectedBytes : Z) (sources : list PartSource) (w : World)
  : outcome (option error) * World :=
  let k := download client authCreds pkgURLBase partPath expectedBytes sources in
  match os_OpenFile H partPath w with
  | ((partFile, None), w) => k partFile w
  | ((partFile, Some openErr), w) =>
      if os_IsExist openErr then
        match os_Stat H partPath w with
        | inr _ =>
            match tryRemove partFile w with
            | (Panicked, w) => (Panicked, w)
            | (Returned (Some err), w) => (Returned (Some err), w)
            | (Returned None, w) => reopen_then k partPath w
            end
        | inl size =>
            if bool_decide (size = expectedBytes) then (Returned None, w)
            else
              match tryRemove partFile w with
              | (Panicked, w) => (Panicked, w)
              | (Returned (Some err), w) => (Returned (Some err), w)
              | (Returned None, w) => reopen_then k partPath w
              end
        end
      else k partFile w
  end.

(** verifyPkgPart; the err printed at line 304 is the one of os.Open, nil
    by then. *)
Definition verifyPkgPart (primarySigningKey userKeysDir partPath partHash : string)
    (signatures : list string) (w : World) : option error * World :=
  match os_Open H partPath w with
  | inr err => (Some err, w)
  | inl partFile =>
      match read_all H partFile w with
      | inr err =>
          (Some (Errorf "Unable to copy image file content into hash function for part %v. Error: %v"
                   [OStr partPath; OErr (Some err)]), w)
      | inl content =>
          let hs : hasher := content in
          let actualHash := hex (sha256_Sum H hs) in
          if bool_decide (partHash ≠ actualHash) then
            let '(_, w) := os_Remove H partPath w in
            (Some (PkgSignatureVerificationError
                     "Mismatch between expected hash, %v and actual hash."
                     [OStr partHash; OStr actualHash]
                     (Errorf "Part failed verification: %v" [OStr partPath])), w)
          else
            match verifySignatureWithAnyKey primarySigningKey userKeysDir hs signatures w with
            | (None, w) => (None, w)
            | (Some _, w) =>
                (Some (PkgSignatureVerificationError
                         "Part failed cryptographic verification: %v" [OErr None]
                         (Errorf "Part failed verification: %v" [OStr partPath])), w)
            end
      end
  end.
End Fetch.

(** ** The orchestrator

    fetchAndVerify starts one goroutine a part and waits for all of them.
    A goroutine takes three steps: fetch the part and record the result;
    read whether the recorder is empty; verify the part and record the
    result.  Each step runs as a whole; a schedule (a list of part names)
    says whose step comes next, so every interleaving of the steps is some
    schedule.  A panic in a goroutine ends the program. *)

(** Where the goroutine of a part stands. *)
Inductive stage := AtFetch | AtCheck | AtVerify | Finished.

Record Orchestration := {
  world : World;
  fetchErrs : gmap string error;      (* fetchErrs.Errors *)
  fetched : list string;
  stages : gmap string stage;
  crashed : bool
}.

Definition set_world (w : World) (st : Orchestration) : Orchestration :=
  {| world := w; fetchErrs := fetchErrs st; fetched := fetched st;
     stages := stages st; crashed := crashed st |}.

Definition set_stage (name : string) (s : stage) (st : Orchestration) : Orchestration :=
  {| world := world st; fetchErrs := fetchErrs st; fetched := fetched st;
     stages := <[name := s]> (stages st); crashed := crashed st |}.

Definition record_error (id : string) (err : error) (st : Orchestration) : Orchestration :=
  {| world := world st; fetchErrs := <[id := err]> (fetchErrs st); fetched := fetched st;
     stages := stages st; crashed := crashed st |}.

Definition record_fetched (abs : string) (st : Orchestration) : Orchestration :=
  {| world := world st; fetchErrs := fetchErrs st; fetched := (fetched st ++ [abs])%list;
     stages := stages st; crashed := crashed st |}.

Definition crash (st : Orchestration) : Orchestration :=
  {| world := world st; fetchErrs := fetchErrs st; fetched := fetched st;
     stages := stages st; crashed := true |}.

(** uint((part.Bytes * 8) / 1024 / 100) on int64 and a 64-bit uint. *)
Definition wrap_int64 (z : Z) : Z := ((z + 2 ^ 63) mod 2 ^ 64 - 2 ^ 63)%Z.

Definition timeoutS (bytes : Z) : Z :=
  if (bytes <=? 1024 * 1024)%Z then 120%Z
  else ((wrap_int64 (bytes * 8) ÷ 1024 ÷ 100) mod 2 ^ 64)%Z.

Section Orchestrator.
Variable H : Host.
Variable authCreds : list (string * gmap string string).
Variable pkgURLBase : string.
Variable parts : gmap string DockerImagePart.
Variable destinationDir primarySigningKey userKeysDir : string.

(** The addResult closure. *)
Definition addResult (id : string) (err : option error) (partPath : string)
    (st : Orchestration) : Orchestration :=
  match err with
  | Some e => record_error id e st
  | None =>
      if bool_decide (partPath ≠ "") then
        match filepath_Abs H partPath with
        | inr e => record_error id e st
        | inl abs => record_fetched abs st
        end
      else st
  end.

(** One step of the goroutine of part [name]. *)
Definition step (name : string) (st : Orchestration) : Orchestration :=
  if crashed st then st else
  match parts !! name, stages st !! name with
  | Some part, Some AtFetch =>
      let partPath := path_Join H destinationDir name in
      match fetchPkgPart H (Some (timeoutS (Bytes part))) authCreds pkgURLBase partPath
              (Bytes part) (Sources part) (world st) with
      | (Panicked, w) => crash (set_world w st)
      | (Returned err, w) => set_stage name AtCheck (addResult name err "" (set_world w st))
      end
  | Some part, Some AtCheck =>
      if bool_decide (size (fetchErrs st) = 0) then set_stage name AtVerify st
      else set_stage name Finished st
  | Some part, Some AtVerify =>
      let partPath := path_Join H destinationDir name in
      let '(err, w) := verifyPkgPart H primarySigningKey userKeysDir partPath
                         (Sha256sum part) (Signatures part) (world st) in
      set_stage name Finished (addResult name err partPath (set_world w st))
  | _, _ => st
  end.

Definition run (schedule : list string) (st : Orchestration) : Orchestration :=
  foldl (fun st name => step name st) st schedule.

(** group.Wait(): goroutines the schedule left unfinished run to their end. *)
Definition wait (st : Orchestration) : Orchestration :=
  foldl (fun st name => step name (step name (step name st))) st
    (map_to_list parts).*1.

Definition start (w : World) : Orchestration :=
  {| world := w; fetchErrs := ∅; fetched := [];
     stages := (fun _ => AtFetch) <$> parts; crashed := false |}.

(** The state when group.Wait() returns. *)
Definition joined (schedule : list string) (w : World) : Orchestration :=
  wait (run schedule (start w)).

Definition fetchAndVerify (schedule : list string) (w : World)
  : outcome (list string * option error) * World :=
  let st := joined schedule w in
  if crashed st then (Panicked, world st)
  else if bool_decide (0 < size (fetchErrs st)) then
    (Returned ([], Some (Errorf "Error fetching parts. Errors: %v" [ORecorder (fetchErrs st)])),
     world st)
  else (Returned (fetched st, None), world st).
End Orchestrator.

(** ** The entry point *)

Section Driver.
Variable H : Host.

(** [pkgURL] is pkgURL.String(). *)
Definition PkgFetch (schedule : list string)
    (pkgURL pkgURLSignature destinationDir primarySigningKey userKeysDir : string)
    (authCreds : list (string * gmap string string)) (w : World)
  : outcome (list string * option error) * World :=
  let client : option Z := None in
  if bool_decide (pkgURLSignature = "") then
    (Returned ([], Some (Errorf "Disabling Pkg file signature checking not supported" [])), w)
  else
    match os_MkdirAll H destinationDir w with
    | (Some err, w) =>
        (Returned ([], Some (PkgSourceError "Failed creating Pkg destination dirs on host" [] err)), w)
    | (None, w) =>
        match fetchPkgMeta H client authCreds primarySigningKey userKeysDir pkgURL
                pkgURLSignature destinationDir w with
        | (inr err, w) => (Returned ([], Some err), w)
        | (inl pkg, w) =>
            match precheckPkgParts pkg with
            | Some err =>
                (Returned ([], Some (PkgPrecheckError
                   "Failed to validate Pkg information before fetching" [] err)), w)
            | None =>
                let pkgDestinationDir := path_Join H destinationDir (ID pkg) in
                match os_MkdirAll H pkgDestinationDir w with
                | (Some err, w) =>
                    (Returned ([], Some (PkgSourceError
                       "Failed creating Pkg destination dirs on host" [] err)), w)
                | (None, w) =>
                    let pkgURLParts := split_slash pkgURL in
                    let pkgURLBase := join_slash (take (length pkgURLParts - 1) pkgURLParts) in
                    match fetchAndVerify H authCreds pkgURLBase (Parts pkg) pkgDestinationDir
                            primarySigningKey userKeysDir schedule w with
                    | (Panicked, w) => (Panicked, w)
                    | (Returned (_, Some err), w) => (Returned ([], Some err), w)
                    | (Returned (fetched, None), w) => (Returned (fetched, None), w)
                    end
                end
            end
        end
    end.
End Driver.

(** * Vocabulary of the statements *)

Section Sources.
Variable H : Host.
Variable client : option Z.
Variable authCreds : list (string * gmap string string).
Variable pkgURLBase : string.

(** What one iteration of the loop leaves in fetchFailure for a source:
    the status and URL of a response that came with an error or is not a
    200, nothing for a 200. *)
Definition source_failure (source : PartSource) : option partFetchFailure :=
  let pURL := resolveURL pkgURLBase source in
  match authenticatedRequest H pURL authCreds with
  | inr _ => None
  | inl req =>
      match client_Do H client req with
      | DoOk response =>
          if bool_decide (StatusCode response ≠ 200%Z)
          then Some {| HTTPStatusCode := StatusCode response; PartURL := pURL |}
          else None
      | DoFail (Some response) _ =>
          Some {| HTTPStatusCode := StatusCode response; PartURL := pURL |}
      | DoFail None _ => None
      end
  end.

Definition last_failure (sources : list PartSource) : option partFetchFailure :=
  last sources ≫= source_failure.

(** The source answers 200 and its body, delivered to the end, has the
    expected number of bytes. *)
Definition serves (expectedBytes : Z) (source : PartSource) : bool :=
  match authenticatedRequest H (resolveURL pkgURLBase source) authCreds with
  | inr _ => false
  | inl req =>
      match client_Do H client req with
      | DoOk response =>
          bool_decide (StatusCode response = 200%Z)
          && match BodyErr response with None => true | Some _ => false end
          && bool_decide (Z.of_nat (length (Body response)) = expectedBytes)
      | DoFail _ _ => false
      end
  end.

(** The source answers, and not with the part: a response other than
    200, or a 200 whose body, delivered to the end, has another number of
    bytes. *)
Definition falls_through (expectedBytes : Z) (source : PartSource) : bool :=
  match authenticatedRequest H (resolveURL pkgURLBase source) authCreds with
  | inr _ => false
  | inl req =>
      match client_Do H client req with
      | DoOk response =>
          bool_decide (StatusCode response ≠ 200%Z)
          || (match BodyErr response with None => true | Some _ => false end
              && bool_decide (Z.of_nat (length (Body response)) ≠ expectedBytes))
      | DoFail (Some _) _ => true
      | DoFail None _ => false
      end
  end.

(** The spec's words for C6: every source that answers with a status
    other than 200 has its failure recorded, and the last one recorded
    decides the kind of the error. *)
Definition spec_recorded_failures (sources : list PartSource) : list partFetchFailure :=
  omap source_failure sources.

Inductive fetch_error_kind := AuthKind | SourceFetchKind | NothingRecordedKind.

Definition spec_kind (sources : list PartSource) : fetch_error_kind :=
  match last (spec_recorded_failures sources) with
  | Some ff =>
      if (HTTPStatusCode ff =? 401)%Z || (HTTPStatusCode ff =? 403)%Z
      then AuthKind else SourceFetchKind
  | None => NothingRecordedKind
  end.
End Sources.

(** The kind of the error fetchPkgPart returned. *)
Definition kind_of (err : error) : option fetch_error_kind :=
  match err with
  | PkgSourceFetchAuthError _ _ _ => Some AuthKind
  | PkgSourceFetchError "Failed to complete fetch." _ _ => Some NothingRecordedKind
  | PkgSourceFetchError _ _ _ => Some SourceFetchKind
  | _ => None
  end.

(** What a part that was fetched and verified adds to the list returned:
    the absolute path of its file. *)
Definition verified_path (H : Host) (destinationDir name : string) : list string :=
  let partPath := path_Join H destinationDir name in
  if bool_decide (partPath ≠ "") then
    match filepath_Abs H partPath with
    | inl abs => [abs]
    | inr _ => []
    end
  else [].

(** Every request is answered by a response: no transport error. *)
Definition always_responds (H : Host) : Prop :=
  forall (timeout : option Z) (req : Request) (err : error),
    client_Do H timeout req ≠ DoFail None err.

(** The system never refuses to open or create a file with os.OpenFile. *)
Definition opens_part_files (H : Host) : Prop :=
  forall path : string, fs_fault H OpOpenFile path = None.

(** As long as no error is recorded, the paths fetched are those of the
    parts whose goroutines have finished, in the order they finished. *)
Definition settled (H : Host) (destinationDir : string) (st : Orchestration) : Prop :=
  fetchErrs st = ∅ ->
  exists names : list string,
    NoDup names
    /\ (forall n, n ∈ names <-> stages st !! n = Some Finished)
    /\ fetched st = flat_map (verified_path H destinationDir) names
    /\ (forall n, n ∈ names -> path_Join H destinationDir n ≠ "" ->
          exists abs, filepath_Abs H (path_Join H destinationDir n) = inl abs).

(** ** Scenario data used by the closed statements below *)

Definition abc : list byte := ["a"; "b"; "c"]%byte.

Definition answer (code : Z) (body : list byte) : Response :=
  {| StatusCode := code; Body := body; BodyErr := None |}.

Definition no_files : World :=
  {| files := ∅; dirs := ∅; requests := []; sigchecks := [] |}.

(** A package host that serves part p1 (three bytes) under /pkg, answers
    403 and a one-byte body on two other paths, does not answer at all on
    a third, and 404 elsewhere.  The digest is a stand-in (the content
    itself); the verifier accepts the signature good and fails with an
    error on the signature bad. *)
Definition pkg_host : Host := {|
  NewRequest := fun _ => None;
  client_Do := fun _ req =>
    if String.eqb (reqURL req) "http://h/pkg/p1" then DoOk (answer 200 abc)
    else if String.eqb (reqURL req) "http://h/down" then
      DoFail None (LibError "net/http" "connection refused")
    else if String.eqb (reqURL req) "http://h/403" then DoOk (answer 403 [])
    else if String.eqb (reqURL req) "http://h/short" then DoOk (answer 200 ["a"%byte])
    else DoOk (answer 404 []);
  sha256_Sum := fun content => content;
  VerifyWorkload := fun _ sig _ _ =>
    if String.eqb sig "bad" then (false, Some (LibError "policy" "malformed signature"))
    else (String.eqb sig "good", None);
  json_Unmarshal := fun _ => inr (LibError "encoding/json" "unexpected end of JSON input");
  path_Join := fun dir name => dir ++ "/" ++ name;
  filepath_Abs := fun p => inl p;
  fs_fault := fun _ _ => None
|}.

(** Two parts under /pkg: p1 is served and carries a good signature, p2
    has one source, which answers 403. *)
Definition two_parts : gmap string DockerImagePart :=
  <["p1" := {| PartID := "p1"; Bytes := 3; Sha256sum := "616263"; Signatures := ["good"];
               Sources := [{| URL := "/p1" |}] |}]>
  (<["p2" := {| PartID := "p2"; Bytes := 3; Sha256sum := "616263"; Signatures := ["good"];
                Sources := [{| URL := "http://h/403" |}] |}]> ∅).

(** The characters fmt prints for the verb x. *)
Definition is_lower_hex (c : ascii) : bool :=
  existsb (Ascii.eqb c) (String.list_ascii_of_string "0123456789abcdef").

Definition all_lower_hex (s : string) : bool :=
  forallb is_lower_hex (String.list_ascii_of_string s).

(** A manifest with the part p1, and a host that serves it (any body
    decodes to it) at http://h/pkg/m.json and is [pkg_host] otherwise. *)
Definition manifest : Pkg :=
  {| ID := "m"; Images := {["p1" := "repo/p1:1"]}; Parts := delete "p2" two_parts |}.

Definition manifest_host : Host := {|
  NewRequest := NewRequest pkg_host;
  client_Do := fun timeout req =>
    if String.eqb (reqURL req) "http://h/pkg/m.json" then DoOk (answer 200 abc)
    else client_Do pkg_host timeout req;
  sha256_Sum := sha256_Sum pkg_host;
  VerifyWorkload := VerifyWorkload pkg_host;
  json_Unmarshal := fun _ => inl manifest;
  path_Join := path_Join pkg_host;
  filepath_Abs := filepath_Abs pkg_host;
  fs_fault := fs_fault pkg_host
|}.

(** A call that, of the files, touches at most the one at [partPath], and
    neither makes a directory nor checks a signature. *)
Definition only_touches (partPath : string) (w w' : World) : Prop :=
  (forall p, p ≠ partPath -> files w' !! p = files w !! p)
  /\ dirs w' = dirs w
  /\ sigchecks w' = sigchecks w.

(** Two parts whose sources are not under /pkg: the only source of p1 does
    not answer, the only source of p2 answers 403. *)
Definition silent_parts : gmap string DockerImagePart :=
  <["p1" := {| PartID := "p1"; Bytes := 3; Sha256sum := "616263"; Signatures := ["good"];
               Sources := [{| URL := "http://h/down" |}] |}]>
  (<["p2" := {| PartID := "p2"; Bytes := 3; Sha256sum := "616263"; Signatures := ["good"];
                Sources := [{| URL := "http://h/403" |}] |}]> ∅).

(** A host that answers every request with the three bytes of p1 and is
    [pkg_host] otherwise. *)
Definition mirror_host : Host := {|
  NewRequest := NewRequest pkg_host;
  client_Do := fun _ _ => DoOk (answer 200 abc);
  sha256_Sum := sha256_Sum pkg_host;
  VerifyWorkload := VerifyWorkload pkg_host;
  json_Unmarshal := json_Unmarshal pkg_host;
  path_Join := path_Join pkg_host;
  filepath_Abs := filepath_Abs pkg_host;
  fs_fault := fs_fault pkg_host
|}.


(** * Properties *)

(** ** The entry point rejects an empty signature *)

(** C8: with an empty pkgURLSignature, PkgFetch returns the error that
    signature checking cannot be disabled and leaves the world as it found
    it: no request is logged, so neither the manifest nor any part was
    asked for. *)
Theorem PkgFetch_empty_signature_rejected (H : Host) (schedule : list string)
    (pkgURL destinationDir primarySigningKey userKeysDir : string)
    (authCreds : list (string * gmap string string)) (w : World) :
  let r := PkgFetch H schedule pkgURL "" destinationDir primarySigningKey userKeysDir authCreds w in
  fst r = Returned ([], Some (Errorf "Disabling Pkg file signature checking not supported" []))
  /\ snd r = w
  /\ requests (snd r) = requests w.
Proof. cbn. auto. Qed.

(** ** Verifying a part *)

Lemma verifyPkgPart_readable (H : Host) (key dir partPath partHash : string)
    (signatures : list string) (content : list byte) (w : World) :
  files w !! partPath = Some content ->
  fs_fault H OpOpen partPath = None ->
  fs_fault H OpRead partPath = None ->
  verifyPkgPart H key dir partPath partHash signatures w =
    if bool_decide (partHash ≠ hex (sha256_Sum H content)) then
      (Some (PkgSignatureVerificationError
               "Mismatch between expected hash, %v and actual hash."
               [OStr partHash; OStr (hex (sha256_Sum H content))]
               (Errorf "Part failed verification: %v" [OStr partPath])),
       snd (os_Remove H partPath w))
    else
      match verifySignatureWithAnyKey H key dir content signatures w with
      | (None, w') => (None, w')
      | (Some _, w') =>
          (Some (PkgSignatureVerificationError
                   "Part failed cryptographic verification: %v" [OErr None]
                   (Errorf "Part failed verification: %v" [OStr partPath])), w')
      end.
Proof.
  intros Hfile Hopen Hread.
  unfold verifyPkgPart, os_Open, read_all.
  rewrite Hopen, Hfile, Hread, Hfile. cbn [default from_option id].
  case_bool_decide; [|reflexivity].
  destruct (os_Remove H partPath w); reflexivity.
Qed.

Lemma verifySignatureWithAnyKey_files (H : Host) (key dir : string) (hs : hasher)
    (signatures : list string) (w : World) :
  files (snd (verifySignatureWithAnyKey H key dir hs signatures w)) = files w.
Proof.
  revert w. induction signatures as [|sig rest IH]; intros w; cbn; [reflexivity|].
  destruct (VerifyWorkload H key sig hs dir) as [[|] [err|]]; cbn; try reflexivity.
  rewrite IH. reflexivity.
Qed.

(** C5: for a part file that can be opened and read, verifyPkgPart removes
    the file and returns the hash mismatch error exactly when the hex
    SHA-256 digest of the content differs from the expected hash; a
    removal the system refuses changes nothing in the error returned.
    When the digest matches, the files are left as they were, whether a
    signature verifies (nil) or none does (the verification error). *)
Theorem verifyPkgPart_removes_iff_hash_differs (H : Host)
    (key dir partPath partHash : string) (signatures : list string)
    (content : list byte) (w : World) :
  files w !! partPath = Some content ->
  fs_fault H OpOpen partPath = None ->
  fs_fault H OpRead partPath = None ->
  let r := verifyPkgPart H key dir partPath partHash signatures w in
  let actualHash := hex (sha256_Sum H content) in
  (partHash ≠ actualHash ->
     fst r = Some (PkgSignatureVerificationError
                     "Mismatch between expected hash, %v and actual hash."
                     [OStr partHash; OStr actualHash]
                     (Errorf "Part failed verification: %v" [OStr partPath]))
     /\ files (snd r) = match fs_fault H OpRemove partPath with
                        | None => delete partPath (files w)
                        | Some _ => files w
                        end)
  /\ (partHash = actualHash ->
     files (snd r) = files w
     /\ fst r = match fst (verifySignatureWithAnyKey H key dir content signatures w) with
                | None => None
                | Some _ =>
                    Some (PkgSignatureVerificationError
                            "Part failed cryptographic verification: %v" [OErr None]
                            (Errorf "Part failed verification: %v" [OStr partPath]))
                end)
  /\ (files (snd r) !! partPath = None -> partHash ≠ actualHash).
Proof.
  intros Hfile Hopen Hread r actualHash. subst r actualHash.
  rewrite (verifyPkgPart_readable H key dir partPath partHash signatures content w Hfile Hopen Hread).
  pose proof (verifySignatureWithAnyKey_files H key dir content signatures w) as Hkeep.
  split; [|split].
  - intros Hne. rewrite bool_decide_true by assumption. cbn [fst snd].
    split; [reflexivity|].
    unfold os_Remove. destruct (fs_fault H OpRemove partPath); [reflexivity|].
    rewrite Hfile. reflexivity.
  - intros Heq. rewrite bool_decide_false by (intros Hne; apply Hne, Heq).
    destruct (verifySignatureWithAnyKey H key dir content signatures w) as [[e|] w'];
      cbn [fst snd] in *; split; auto.
  - case_bool_decide as Hd; [intros _; assumption|].
    destruct (verifySignatureWithAnyKey H key dir content signatures w) as [[e|] w'];
      cbn [fst snd] in *; rewrite Hkeep, Hfile; discriminate.
Qed.

Lemma verifyPkgPart_removes_iff_hash_differs_witness :
  fst (verifyPkgPart pkg_host "key" "keys" "/d/p1" "00" ["good"]
         {| files := {["/d/p1" := abc]}; dirs := ∅; requests := []; sigchecks := [] |})
    = Some (PkgSignatureVerificationError
              "Mismatch between expected hash, %v and actual hash."
              [OStr "00"; OStr "616263"]
              (Errorf "Part failed verification: %v" [OStr "/d/p1"])).
Proof.
  pose (w := {| files := {["/d/p1" := abc]}; dirs := ∅; requests := []; sigchecks := [] |}).
  destruct (verifyPkgPart_removes_iff_hash_differs pkg_host "key" "keys" "/d/p1" "00" ["good"] abc w)
    as [Hdiff _]; [reflexivity..|].
  destruct Hdiff as [Hres _]; [discriminate|].
  exact Hres.
Defined.

(** C10: with an empty signature list the verifier returns the
    VerificationError without handing any signature to a key (the world,
    and with it the log of signature checks, is unchanged), so verifyPkgPart
    returns the verification error even for a file whose digest is the
    expected one, and the file stays on disk. *)
Theorem empty_signatures_never_verify (H : Host) (key dir partPath partHash : string)
    (content : list byte) (w : World) :
  files w !! partPath = Some content ->
  fs_fault H OpOpen partPath = None ->
  fs_fault H OpRead partPath = None ->
  partHash = hex (sha256_Sum H content) ->
  (forall hs : hasher,
      verifySignatureWithAnyKey H key dir hs [] w = (Some (VerificationError ""), w))
  /\ verifyPkgPart H key dir partPath partHash [] w =
       (Some (PkgSignatureVerificationError
                "Part failed cryptographic verification: %v" [OErr None]
                (Errorf "Part failed verification: %v" [OStr partPath])), w)
  /\ sigchecks (snd (verifyPkgPart H key dir partPath partHash [] w)) = sigchecks w
  /\ files (snd (verifyPkgPart H key dir partPath partHash [] w)) !! partPath = Some content.
Proof.
  intros Hfile Hopen Hread Hhash.
  assert (Hv : verifyPkgPart H key dir partPath partHash [] w =
       (Some (PkgSignatureVerificationError
                "Part failed cryptographic verification: %v" [OErr None]
                (Errorf "Part failed verification: %v" [OStr partPath])), w)).
  { rewrite (verifyPkgPart_readable H key dir partPath partHash [] content w Hfile Hopen Hread).
    rewrite bool_decide_false by (intros Hne; apply Hne, Hhash). reflexivity. }
  split; [reflexivity|]. rewrite Hv. cbn [snd]. auto.
Qed.

Lemma empty_signatures_never_verify_witness :
  verifyPkgPart pkg_host "key" "keys" "/d/p1" "616263" []
    {| files := {["/d/p1" := abc]}; dirs := ∅; requests := []; sigchecks := [] |}
  = (Some (PkgSignatureVerificationError
             "Part failed cryptographic verification: %v" [OErr None]
             (Errorf "Part failed verification: %v" [OStr "/d/p1"])),
     {| files := {["/d/p1" := abc]}; dirs := ∅; requests := []; sigchecks := [] |}).
Proof.
  pose (w := {| files := {["/d/p1" := abc]}; dirs := ∅; requests := []; sigchecks := [] |}).
  destruct (empty_signatures_never_verify pkg_host "key" "keys" "/d/p1" "616263" abc w)
    as (_ & Hv & _); [reflexivity..|].
  exact Hv.
Defined.

(** ** Fetching the manifest *)

(** C4: fetchPkgMeta changes the files only by writing the manifest, and
    only after the response had status 200, the signature verified over
    the body and the body decoded; the file written is
    destinationDir/ID.json with the body as received (or, when the system
    refuses the write after the file was opened for it, the file is left
    empty and the error of the write is returned).  A response with
    another status yields the PkgMetaError for the status and leaves the
    files as they were. *)
Theorem fetchPkgMeta_writes_after_all_checks (H : Host) (client : option Z)
    (authCreds : list (string * gmap string string))
    (primarySigningKey userKeysDir pkgURL pkgURLSignature destinationDir : string) (w : World) :
  let r := fetchPkgMeta H client authCreds primarySigningKey userKeysDir pkgURL
             pkgURLSignature destinationDir w in
  (files (snd r) ≠ files w ->
     exists req response pkg,
       authenticatedRequest H pkgURL authCreds = inl req
       /\ client_Do H client req = DoOk response
       /\ StatusCode response = 200%Z
       /\ VerifyWorkload H primarySigningKey pkgURLSignature (Body response) userKeysDir
            = (true, None)
       /\ json_Unmarshal H (Body response) = inl pkg
       /\ fs_fault H OpWriteFile (path_Join H destinationDir (ID pkg ++ ".json")) = None
       /\ ((fst r = inl pkg
            /\ files (snd r)
                 = <[path_Join H destinationDir (ID pkg ++ ".json") := Body response]> (files w))
           \/ (exists e,
                 fs_fault H OpWrite (path_Join H destinationDir (ID pkg ++ ".json")) = Some e
                 /\ fst r = inr (PkgMetaError "Failed to write file %v"
                                   [OStr (path_Join H destinationDir (ID pkg ++ ".json"))]
                                   (PathError "write"
                                      (path_Join H destinationDir (ID pkg ++ ".json")) e))
                 /\ files (snd r)
                      = <[path_Join H destinationDir (ID pkg ++ ".json") := []]> (files w))))
  /\ (forall req response,
       authenticatedRequest H pkgURL authCreds = inl req ->
       client_Do H client req = DoOk response ->
       StatusCode response ≠ 200%Z ->
       fst r = inr (PkgMetaError "Unexpected status code in response to Horizon Pkg fetch: %v"
                      [OInt (StatusCode response)]
                      (Errorf "Failed to fetch Pkg meta from %v" [OStr pkgURL]))
       /\ files (snd r) = files w).
Proof.
  cbv zeta. unfold fetchPkgMeta.
  destruct (authenticatedRequest H pkgURL authCreds) as [req|err] eqn:Hreq.
  2:{ cbn. split; [congruence|]. intros ? ? [=]. }
  destruct (client_Do H client req) as [response|response err] eqn:Hdo.
  2:{ cbn. split; [congruence|]. intros ? ? [= <-]. congruence. }
  case_bool_decide as Hstatus.
  { cbn. split; [congruence|].
    intros ? response' [= <-] Hdo' _. rewrite Hdo in Hdo'. injection Hdo' as <-. auto. }
  split.
  2:{ intros ? response' [= <-] Hdo' Hne. rewrite Hdo in Hdo'. injection Hdo' as <-.
      contradiction. }
  assert (Hok : StatusCode response = 200%Z) by (destruct (decide (StatusCode response = 200%Z)); tauto).
  cbn [verifySignatureWithAnyKey].
  destruct (VerifyWorkload H primarySigningKey pkgURLSignature (Body response) userKeysDir)
    as [[|] [verr|]] eqn:Hverify; cbn; try congruence.
  destruct (json_Unmarshal H (Body response)) as [pkg|jerr] eqn:Hjson; cbn; [|congruence].
  unfold writeFile, ioutil_WriteFile.
  destruct (fs_fault H OpWriteFile (path_Join H destinationDir (ID pkg ++ ".json")))
    eqn:Hcreate; cbn; [congruence|].
  destruct (fs_fault H OpWrite (path_Join H destinationDir (ID pkg ++ ".json"))) as [e|] eqn:Hwrite;
    cbn; intros _; exists req, response, pkg;
    do 6 (split; [first [assumption | reflexivity]|]).
  - right. exists e. auto.
  - left. auto.
Qed.

Lemma fetchPkgMeta_writes_after_all_checks_witness :
  files (snd (fetchPkgMeta pkg_host None [] "key" "keys" "http://h/pkg/m.json" "good" "/d"
                no_files)) = files no_files.
Proof.
  destruct (fetchPkgMeta_writes_after_all_checks pkg_host None [] "key" "keys"
              "http://h/pkg/m.json" "good" "/d" no_files) as [_ Hstatus].
  destruct (Hstatus {| reqURL := "http://h/pkg/m.json"; BasicAuth := None |} (answer 404 []))
    as [_ Hfiles]; [reflexivity | reflexivity | discriminate |].
  exact Hfiles.
Defined.

(** ** Fetching a part *)

(** When the part file can be opened or created, fetchPkgPart goes
    straight to the loop over the sources with that file. *)
Lemma fetchPkgPart_opened (H : Host) (client : option Z)
    (authCreds : list (string * gmap string string)) (pkgURLBase partPath : string)
    (expectedBytes : Z) (sources : list PartSource) (w : World) :
  fs_fault H OpOpenFile partPath = None ->
  fetchPkgPart H client authCreds pkgURLBase partPath expectedBytes sources w =
    download H client authCreds pkgURLBase partPath expectedBytes sources (Some partPath)
      (snd (os_OpenFile H partPath w)).
Proof.
  intros Hopen. unfold fetchPkgPart, os_OpenFile. rewrite Hopen.
  destruct (files w !! partPath); reflexivity.
Qed.

(** C2 fails on the code: os.OpenFile with O_RDWR|O_CREATE opens an
    existing file without error, so the branch that compares the size is
    not entered.  Here the part file exists with exactly the expected three
    bytes, and fetchPkgPart still requests the part from its source. *)
Theorem fetchPkgPart_existing_file_fetched_again :
  let w := {| files := {["/d/p1" := abc]}; dirs := ∅; requests := []; sigchecks := [] |} in
  let r := fetchPkgPart pkg_host None [] "http://h/pkg" "/d/p1" 3 [{| URL := "/p1" |}] w in
  os_Stat pkg_host "/d/p1" w = inl 3%Z
  /\ fst r = Returned None
  /\ requests (snd r) = [(None, {| reqURL := "http://h/pkg/p1"; BasicAuth := None |})].
Proof. vm_compute. auto. Qed.

(** With the same file and no source at all the call even fails. *)
Lemma fetchPkgPart_existing_file_no_source :
  fst (fetchPkgPart pkg_host None [] "http://h/pkg" "/d/p1" 3 []
         {| files := {["/d/p1" := abc]}; dirs := ∅; requests := []; sigchecks := [] |})
  = Returned (Some (PkgSourceFetchError "Failed to complete fetch." []
       (Errorf "Part could not be fetched: %v from any of its sources: %v"
          [OStr "/d/p1"; OSources []]))).
Proof. vm_compute. reflexivity. Qed.

(** C3 fails on the code: when client.Do returns an error and no
    response, the branch reads response.StatusCode of the nil response.
    Here the first source does not answer; the call panics and the second
    source, which would serve the part, is never asked. *)
Theorem fetchPkgPart_transport_error_panics :
  let r := fetchPkgPart pkg_host None [] "http://h/pkg" "/d/p1" 3
             [{| URL := "http://h/down" |}; {| URL := "/p1" |}] no_files in
  fst r = Panicked
  /\ requests (snd r) = [(None, {| reqURL := "http://h/down"; BasicAuth := None |})].
Proof. vm_compute. auto. Qed.

(** ** The loop over the sources *)

Section Loop.
Variable H : Host.
Variable client : option Z.
Variable authCreds : list (string * gmap string string).
Variable pkgURLBase partPath : string.
Variable expectedBytes : Z.

Local Abbreviation loop := (trySources H client authCreds pkgURLBase partPath expectedBytes).
Local Abbreviation request_of source :=
  {| reqURL := resolveURL pkgURLBase source;
     BasicAuth := basicAuthFor (resolveURL pkgURLBase source) authCreds |}.

(** One iteration returns, panics, or goes on to the remaining sources
    with [fetchFailure] set from this source alone. *)
Lemma trySources_iteration (source : PartSource) (rest : list PartSource)
    (partFile : option string) (ff : option partFetchFailure) (w : World) :
  (exists err w1, loop (source :: rest) partFile ff w = (Returned (Return err), w1))
  \/ (exists w1, loop (source :: rest) partFile ff w = (Panicked, w1))
  \/ (exists partFile' w1,
        loop (source :: rest) partFile ff w
        = loop rest partFile' (source_failure H client authCreds pkgURLBase source) w1).
Proof.
  unfold source_failure. cbn [trySources]. unfold authenticatedRequest.
  destruct (NewRequest H (resolveURL pkgURLBase source)) as [err|]; [left; eauto|].
  destruct (client_Do H client (request_of source)) as [response|[response|] err].
  - case_bool_decide; [right; right; eauto|].
    destruct (io_Copy H partFile response _) as [[n [err|]] w1]; [left; eauto|].
    case_bool_decide; [|left; eauto].
    destruct (tryRemove H partFile w1) as [[e|] w2]; [|right; left; eauto].
    destruct (os_OpenFile H partPath w2) as [[f [err|]] w3]; [left; eauto|].
    right; right; eauto.
  - right; right; eauto.
  - right; left; eauto.
Qed.

(** When the loop runs out of sources, [fetchFailure] is what the last
    source left, whatever the earlier ones did. *)
Lemma trySources_exhausted (sources : list PartSource) (partFile : option string)
    (ff ff' : option partFetchFailure) (w w' : World) :
  loop sources partFile ff w = (Returned (Exhausted ff'), w') ->
  ff' = match last sources with
        | Some source => source_failure H client authCreds pkgURLBase source
        | None => ff
        end.
Proof.
  revert partFile ff w.
  induction sources as [|source rest IH]; intros partFile ff w Hloop.
  - cbn in *. congruence.
  - destruct (trySources_iteration source rest partFile ff w)
      as [(err & w1 & Hr) | [(w1 & Hp) | (partFile' & w1 & Hnext)]].
    + congruence.
    + congruence.
    + rewrite Hnext in Hloop. apply IH in Hloop. rewrite Hloop.
      destruct rest as [|source' rest']; [reflexivity|].
      rewrite last_cons_cons.
      destruct (last (source' :: rest')) eqn:Hlast; [reflexivity|].
      apply last_None in Hlast. discriminate.
Qed.

Hypothesis may_open : fs_fault H OpOpenFile partPath = None.
Hypothesis may_write : fs_fault H OpWrite partPath = None.

(** A source that serves the part ends the loop with success. *)
Lemma trySources_serves (source : PartSource) (rest : list PartSource)
    (ff : option partFetchFailure) (w : World) :
  serves H client authCreds pkgURLBase expectedBytes source = true ->
  exists w',
    loop (source :: rest) (Some partPath) ff w = (Returned (Return None), w')
    /\ requests w' = (requests w ++ [(client, request_of source)])%list.
Proof.
  unfold serves. cbn [trySources]. unfold authenticatedRequest.
  destruct (NewRequest H (resolveURL pkgURLBase source)); [discriminate|].
  destruct (client_Do H client (request_of source)) as [response|? ?]; [|discriminate].
  intros Hs. apply andb_prop in Hs as [Hs Hlen]. apply andb_prop in Hs as [Hcode Hbody].
  apply bool_decide_eq_true in Hcode, Hlen.
  rewrite bool_decide_false by (intros Hne; apply Hne, Hcode).
  unfold io_Copy. rewrite may_write.
  destruct (BodyErr response); [discriminate|].
  rewrite bool_decide_false by (intros Hne; apply Hne, Hlen).
  eexists. split; reflexivity.
Qed.

(** A source that falls through hands the loop on, with the part file
    still open. *)
Lemma trySources_falls_through (source : PartSource) (rest : list PartSource)
    (ff : option partFetchFailure) (w : World) :
  falls_through H client authCreds pkgURLBase expectedBytes source = true ->
  exists w',
    loop (source :: rest) (Some partPath) ff w
    = loop rest (Some partPath) (source_failure H client authCreds pkgURLBase source) w'
    /\ requests w' = (requests w ++ [(client, request_of source)])%list.
Proof.
  unfold falls_through, source_failure. cbn [trySources]. unfold authenticatedRequest.
  destruct (NewRequest H (resolveURL pkgURLBase source)); [discriminate|].
  destruct (client_Do H client (request_of source)) as [response|[response|] ?];
    [| intros _; eexists; split; reflexivity | discriminate].
  case_bool_decide as Hcode; [intros _; eexists; split; reflexivity|].
  cbn [orb]. intros Hs. apply andb_prop in Hs as [Hbody Hlen].
  apply bool_decide_eq_true in Hlen.
  unfold io_Copy. rewrite may_write.
  destruct (BodyErr response); [discriminate|].
  rewrite bool_decide_true by exact Hlen.
  cbn [tryRemove].
  destruct (os_Remove H partPath _) as [rmErr w1] eqn:Hrm.
  unfold os_OpenFile. rewrite may_open.
  assert (Hreq : requests w1 = (requests w ++ [(client, request_of source)])%list).
  { unfold os_Remove in Hrm. destruct (fs_fault H OpRemove partPath).
    - injection Hrm as _ <-. reflexivity.
    - cbn in Hrm. rewrite lookup_insert_eq in Hrm. injection Hrm as _ <-. reflexivity. }
  destruct (files w1 !! partPath); eexists; (split; [reflexivity|]); exact Hreq.
Qed.

(** Sources that all fall through exhaust the loop; each is asked once,
    in order. *)
Lemma trySources_all_fall_through (sources : list PartSource)
    (ff : option partFetchFailure) (w : World) :
  (forall source, source ∈ sources ->
     falls_through H client authCreds pkgURLBase expectedBytes source = true) ->
  exists w',
    loop sources (Some partPath) ff w
    = (Returned (Exhausted match last sources with
                           | Some source => source_failure H client authCreds pkgURLBase source
                           | None => ff
                           end), w')
    /\ requests w' = (requests w ++ map (fun source => (client, request_of source)) sources)%list.
Proof.
  revert ff w. induction sources as [|source rest IH]; intros ff w Hall.
  - exists w. cbn. rewrite app_nil_r. auto.
  - destruct (trySources_falls_through source rest ff w) as (w1 & Hstep & Hreq1).
    { apply Hall. left. }
    destruct (IH (source_failure H client authCreds pkgURLBase source) w1) as (w' & Hrest & Hreq).
    { intros s Hs. apply Hall. right. exact Hs. }
    exists w'. rewrite Hstep, Hrest, Hreq, Hreq1. cbn [map]. rewrite <- app_assoc.
    split; [|reflexivity].
    destruct rest as [|source' rest']; [reflexivity|].
    rewrite last_cons_cons.
    destruct (last (source' :: rest')) eqn:Hlast; [reflexivity|].
    apply last_None in Hlast. discriminate.
Qed.

(** After sources that fall through, a source that serves the part ends
    the loop; the sources behind it are not asked. *)
Lemma trySources_first_serving (pre : list PartSource) (source : PartSource)
    (post : list PartSource) (ff : option partFetchFailure) (w : World) :
  (forall p, p ∈ pre ->
     falls_through H client authCreds pkgURLBase expectedBytes p = true) ->
  serves H client authCreds pkgURLBase expectedBytes source = true ->
  exists w',
    loop (pre ++ source :: post) (Some partPath) ff w = (Returned (Return None), w')
    /\ requests w'
       = (requests w ++ map (fun source => (client, request_of source)) (pre ++ [source]))%list.
Proof.
  revert ff w. induction pre as [|p pre IH]; intros ff w Hpre Hserves.
  - destruct (trySources_serves source post ff w Hserves) as (w' & Hloop & Hreq).
    exists w'. auto.
  - destruct (trySources_falls_through p (pre ++ source :: post) ff w) as (w1 & Hstep & Hreq1).
    { apply Hpre. left. }
    destruct (IH (source_failure H client authCreds pkgURLBase p) w1) as (w' & Hrest & Hreq).
    { intros q Hq. apply Hpre. right. exact Hq. }
    { exact Hserves. }
    exists w'. cbn [app]. rewrite Hstep, Hrest, Hreq, Hreq1. cbn [map app].
    rewrite <- app_assoc. auto.
Qed.

(** With sources that all answer, the loop succeeds exactly when one of
    them serves the part. *)
Lemma trySources_answered (sources : list PartSource)
    (ff : option partFetchFailure) (w : World) :
  (forall source, source ∈ sources ->
     serves H client authCreds pkgURLBase expectedBytes source
     || falls_through H client authCreds pkgURLBase expectedBytes source = true) ->
  (exists w', loop sources (Some partPath) ff w = (Returned (Return None), w')
              /\ exists source, source ∈ sources
                   /\ serves H client authCreds pkgURLBase expectedBytes source = true)
  \/ (exists ff' w', loop sources (Some partPath) ff w = (Returned (Exhausted ff'), w')
              /\ forall source, source ∈ sources ->
                   serves H client authCreds pkgURLBase expectedBytes source = false).
Proof.
  revert ff w. induction sources as [|source rest IH]; intros ff w Hall.
  - right. exists ff, w. split; [reflexivity|]. intros s Hs. inversion Hs.
  - destruct (serves H client authCreds pkgURLBase expectedBytes source) eqn:Hserves.
    + destruct (trySources_serves source rest ff w Hserves) as (w' & Hloop & _).
      left. exists w'. split; [exact Hloop|]. exists source. split; [left|exact Hserves].
    + assert (Hfalls : falls_through H client authCreds pkgURLBase expectedBytes source = true).
      { specialize (Hall source). rewrite Hserves in Hall. apply Hall. left. }
      destruct (trySources_falls_through source rest ff w Hfalls) as (w1 & Hstep & _).
      rewrite Hstep.
      destruct (IH (source_failure H client authCreds pkgURLBase source) w1)
        as [(w' & Hloop & s & Hs & Hss) | (ff' & w' & Hloop & Hnone)].
      { intros s Hs. apply Hall. right. exact Hs. }
      * left. exists w'. split; [exact Hloop|]. exists s. split; [right|]; assumption.
      * right. exists ff', w'. split; [exact Hloop|].
        intros s Hs. inversion Hs; subst; auto.
Qed.
End Loop.

Lemma os_OpenFile_requests (H : Host) (path : string) (w : World) :
  requests (snd (os_OpenFile H path w)) = requests w.
Proof.
  unfold os_OpenFile. destruct (fs_fault H OpOpenFile path); [reflexivity|].
  destruct (files w !! path); reflexivity.
Qed.

(** C9: the sources are asked in the order declared, each at the base of
    the Pkg URL followed by its location when the location begins with a
    slash and at its location otherwise; the first source that answers 200
    with a body of expectedBytes bytes makes fetchPkgPart return nil at
    once, and no source behind it is asked. *)
Theorem first_fitting_source_ends_fetch (H : Host) (client : option Z)
    (authCreds : list (string * gmap string string)) (pkgURLBase partPath : string)
    (expectedBytes : Z) (pre : list PartSource) (source : PartSource)
    (post : list PartSource) (w : World) :
  fs_fault H OpOpenFile partPath = None ->
  fs_fault H OpWrite partPath = None ->
  (forall p, p ∈ pre -> falls_through H client authCreds pkgURLBase expectedBytes p = true) ->
  serves H client authCreds pkgURLBase expectedBytes source = true ->
  let r := fetchPkgPart H client authCreds pkgURLBase partPath expectedBytes
             (pre ++ source :: post) w in
  fst r = Returned None
  /\ map (fun q => reqURL (snd q)) (requests (snd r))
     = (map (fun q => reqURL (snd q)) (requests w)
        ++ map (fun s => if String.prefix "/" (URL s) then (pkgURLBase ++ URL s)%string else URL s)
             (pre ++ [source]))%list.
Proof.
  intros Hopen Hwrite Hpre Hserves r. subst r.
  rewrite fetchPkgPart_opened by exact Hopen. unfold download.
  destruct (trySources_first_serving H client authCreds pkgURLBase partPath expectedBytes
              Hopen Hwrite pre source post None (snd (os_OpenFile H partPath w)) Hpre Hserves)
    as (w' & Hloop & Hreq).
  rewrite Hloop. cbn [fst snd]. split; [reflexivity|].
  rewrite Hreq, os_OpenFile_requests, map_app, map_map. reflexivity.
Qed.

Lemma first_fitting_source_ends_fetch_witness :
  let r := fetchPkgPart pkg_host None [] "http://h/pkg" "/d/p1" 3
             ([{| URL := "http://h/403" |}; {| URL := "http://h/short" |}]
              ++ {| URL := "/p1" |} :: [{| URL := "http://h/other" |}]) no_files in
  fst r = Returned None
  /\ map (fun q => reqURL (snd q)) (requests (snd r))
     = ["http://h/403"; "http://h/short"; "http://h/pkg/p1"].
Proof.
  apply (first_fitting_source_ends_fetch pkg_host None [] "http://h/pkg" "/d/p1" 3
           [{| URL := "http://h/403" |}; {| URL := "http://h/short" |}]
           {| URL := "/p1" |} [{| URL := "http://h/other" |}] no_files).
  - reflexivity.
  - reflexivity.
  - intros p Hp. apply list_elem_of_In in Hp. cbn in Hp.
    destruct Hp as [<- | [<- | []]]; reflexivity.
  - reflexivity.
Defined.

(** C6 as the spec words it fails: the first source answers 403, which is
    recorded; the second answers 200 with one byte instead of three, which
    clears the record.  The last failure recorded is the 403, yet the
    error is the one for nothing recorded, not the authorization error. *)
Lemma last_recorded_failure_not_decisive :
  let sources := [{| URL := "http://h/403" |}; {| URL := "http://h/short" |}] in
  let r := fetchPkgPart pkg_host None [] "http://h/pkg" "/d/p1" 3 sources no_files in
  spec_recorded_failures pkg_host None [] "http://h/pkg" sources
    = [{| HTTPStatusCode := 403; PartURL := "http://h/403" |}]
  /\ spec_kind pkg_host None [] "http://h/pkg" sources = AuthKind
  /\ fst r = Returned (Some (PkgSourceFetchError "Failed to complete fetch." []
               (Errorf "Part could not be fetched: %v from any of its sources: %v"
                  [OStr "/d/p1"; OSources sources])))
  /\ ~ (forall err, fst r = Returned (Some err) ->
          kind_of err = Some (spec_kind pkg_host None [] "http://h/pkg" sources)).
Proof.
  cbv zeta. split; [vm_compute; reflexivity|]. split; [vm_compute; reflexivity|].
  split; [vm_compute; reflexivity|].
  intros Hall. specialize (Hall _ eq_refl). vm_compute in Hall. discriminate.
Qed.

(** C6, amended: when every source has answered without serving the part,
    fetchPkgPart fails with the error built from what the last source in
    the list left in fetchFailure, and from nothing else: the
    authorization error when the last source answered 401 or 403, the
    source fetch error with status and URL when it answered another status
    that is not 200, and the source fetch error that nothing completed when
    the last source answered 200 with another byte count or there is no
    source. *)
Theorem exhaustion_classified_by_last_source (H : Host) (client : option Z)
    (authCreds : list (string * gmap string string)) (pkgURLBase partPath : string)
    (expectedBytes : Z) (sources : list PartSource) (w : World) :
  fs_fault H OpOpenFile partPath = None ->
  fs_fault H OpWrite partPath = None ->
  (forall source, source ∈ sources ->
     falls_through H client authCreds pkgURLBase expectedBytes source = true) ->
  let r := fetchPkgPart H client authCreds pkgURLBase partPath expectedBytes sources w in
  let ff := last_failure H client authCreds pkgURLBase sources in
  let internalError :=
    Errorf "Part could not be fetched: %v from any of its sources: %v"
      [OStr partPath; OSources sources] in
  fst r = Returned (Some (exhausted partPath sources ff))
  /\ exhausted partPath sources ff
     = match ff with
       | Some f =>
           if (HTTPStatusCode f =? 401)%Z || (HTTPStatusCode f =? 403)%Z then
             PkgSourceFetchAuthError
               "Authentication or Authorization error attempting to fetch part from URL: %v. HTTP Status code: %v"
               [OStr (PartURL f); OInt (HTTPStatusCode f)] internalError
           else
             PkgSourceFetchError "Error when fetching part from URL: %v. HTTP Status code: %v"
               [OStr (PartURL f); OInt (HTTPStatusCode f)] internalError
       | None => PkgSourceFetchError "Failed to complete fetch." [] internalError
       end
  /\ kind_of (exhausted partPath sources ff)
     = Some match ff with
            | Some f =>
                if (HTTPStatusCode f =? 401)%Z || (HTTPStatusCode f =? 403)%Z
                then AuthKind else SourceFetchKind
            | None => NothingRecordedKind
            end
  /\ (sources = [] -> ff = None).
Proof.
  intros Hopen Hwrite Hall r ff internalError. subst r ff internalError.
  rewrite fetchPkgPart_opened by exact Hopen. unfold download.
  destruct (trySources_all_fall_through H client authCreds pkgURLBase partPath expectedBytes
              Hopen Hwrite sources None (snd (os_OpenFile H partPath w)) Hall)
    as (w' & Hloop & _).
  rewrite Hloop. cbn [fst].
  assert (Hff : match last sources with
                | Some source => source_failure H client authCreds pkgURLBase source
                | None => None
                end = last_failure H client authCreds pkgURLBase sources).
  { unfold last_failure. destruct (last sources); reflexivity. }
  rewrite Hff.
  split; [reflexivity|]. split; [reflexivity|]. split.
  - unfold exhausted.
    destruct (last_failure H client authCreds pkgURLBase sources) as [f|]; [|reflexivity].
    destruct ((HTTPStatusCode f =? 401)%Z || (HTTPStatusCode f =? 403)%Z); reflexivity.
  - intros ->. reflexivity.
Qed.

Lemma exhaustion_classified_by_last_source_witness :
  fst (fetchPkgPart pkg_host None [] "http://h/pkg" "/d/p1" 3
         [{| URL := "http://h/short" |}; {| URL := "http://h/403" |}] no_files)
  = Returned (Some (exhausted "/d/p1"
       [{| URL := "http://h/short" |}; {| URL := "http://h/403" |}]
       (Some {| HTTPStatusCode := 403; PartURL := "http://h/403" |}))).
Proof.
  destruct (exhaustion_classified_by_last_source pkg_host None [] "http://h/pkg" "/d/p1" 3
              [{| URL := "http://h/short" |}; {| URL := "http://h/403" |}] no_files)
    as [Hres _].
  - reflexivity.
  - reflexivity.
  - intros p Hp. apply list_elem_of_In in Hp. cbn in Hp.
    destruct Hp as [<- | [<- | []]]; reflexivity.
  - exact Hres.
Defined.

(** ** Reordering signatures and sources *)

(** When the verifier reports no error, a list of signatures passes
    exactly when one of them verifies. *)
Lemma verifySignatureWithAnyKey_any (H : Host) (key dir : string) (hs : hasher)
    (signatures : list string) (w : World) :
  (forall sig, sig ∈ signatures -> snd (VerifyWorkload H key sig hs dir) = None) ->
  fst (verifySignatureWithAnyKey H key dir hs signatures w) = None
  <-> exists sig, sig ∈ signatures /\ fst (VerifyWorkload H key sig hs dir) = true.
Proof.
  revert w. induction signatures as [|sig rest IH]; intros w Hquiet.
  - cbn. split; [discriminate|]. intros (sig & Hin & _). inversion Hin.
  - cbn [verifySignatureWithAnyKey].
    pose proof (Hquiet sig (list_elem_of_here sig rest)) as Hsig.
    destruct (VerifyWorkload H key sig hs dir) as [verified err] eqn:Hv.
    cbn in Hsig. subst err. destruct verified.
    + cbn. split; [|reflexivity]. intros _. exists sig. rewrite Hv. split; [left|reflexivity].
    + rewrite IH by (intros s Hs; apply Hquiet; right; exact Hs).
      split; intros (s & Hs & Hok).
      * exists s. split; [right; exact Hs|exact Hok].
      * inversion Hs; subst; [rewrite Hv in Hok; discriminate|]. exists s. auto.
Qed.

(** C7 as the spec words it fails: the verifier stops at the first
    signature it cannot process, so a list passes with the good signature
    in front of a malformed one and fails with the two exchanged. *)
Lemma signature_order_changes_outcome :
  ["good"; "bad"] ≡ₚ ["bad"; "good"]
  /\ fst (verifySignatureWithAnyKey pkg_host "key" "keys" abc ["good"; "bad"] no_files) = None
  /\ fst (verifySignatureWithAnyKey pkg_host "key" "keys" abc ["bad"; "good"] no_files)
     = Some (LibError "policy" "malformed signature")
  /\ ~ (forall sigs sigs' : list string, sigs ≡ₚ sigs' ->
          fst (verifySignatureWithAnyKey pkg_host "key" "keys" abc sigs no_files) = None ->
          fst (verifySignatureWithAnyKey pkg_host "key" "keys" abc sigs' no_files) = None).
Proof.
  assert (Hperm : ["good"; "bad"] ≡ₚ ["bad"; "good"]) by apply perm_swap.
  split; [exact Hperm|]. split; [reflexivity|]. split; [reflexivity|].
  intros Hall. specialize (Hall _ _ Hperm eq_refl). discriminate.
Qed.

(** C7, amended: for signatures on which the verifier reports no error,
    and for sources that all answer (a response, and a body delivered to
    its end when the status is 200) to a part file that can be opened and
    written, reordering the signatures or the sources changes neither
    whether verification passes nor whether the fetch returns nil; and the
    fetch does not panic. *)
Theorem reordering_keeps_outcome (H : Host) (client : option Z)
    (authCreds : list (string * gmap string string))
    (pkgURLBase partPath key dir : string) (expectedBytes : Z) (hs : hasher)
    (signatures signatures' : list string) (sources sources' : list PartSource)
    (w w' : World) :
  signatures ≡ₚ signatures' ->
  sources ≡ₚ sources' ->
  (forall sig, sig ∈ signatures -> snd (VerifyWorkload H key sig hs dir) = None) ->
  fs_fault H OpOpenFile partPath = None ->
  fs_fault H OpWrite partPath = None ->
  (forall source, source ∈ sources ->
     serves H client authCreds pkgURLBase expectedBytes source
     || falls_through H client authCreds pkgURLBase expectedBytes source = true) ->
  (fst (verifySignatureWithAnyKey H key dir hs signatures w) = None
   <-> fst (verifySignatureWithAnyKey H key dir hs signatures' w') = None)
  /\ (fst (fetchPkgPart H client authCreds pkgURLBase partPath expectedBytes sources w)
        = Returned None
      <-> fst (fetchPkgPart H client authCreds pkgURLBase partPath expectedBytes sources' w')
        = Returned None)
  /\ fst (fetchPkgPart H client authCreds pkgURLBase partPath expectedBytes sources w)
       ≠ Panicked
  /\ fst (fetchPkgPart H client authCreds pkgURLBase partPath expectedBytes sources' w')
       ≠ Panicked.
Proof.
  intros Hsigs Hsources Hquiet Hopen Hwrite Hanswer.
  assert (Hquiet' : forall sig, sig ∈ signatures' ->
            snd (VerifyWorkload H key sig hs dir) = None).
  { intros sig Hin. apply Hquiet. rewrite Hsigs. exact Hin. }
  assert (Hanswer' : forall source, source ∈ sources' ->
            serves H client authCreds pkgURLBase expectedBytes source
            || falls_through H client authCreds pkgURLBase expectedBytes source = true).
  { intros source Hin. apply Hanswer. rewrite Hsources. exact Hin. }
  assert (Hfetch : forall l v,
            (forall source, source ∈ l ->
               serves H client authCreds pkgURLBase expectedBytes source
               || falls_through H client authCreds pkgURLBase expectedBytes source = true) ->
            (fst (fetchPkgPart H client authCreds pkgURLBase partPath expectedBytes l v)
               = Returned None
             <-> exists source, source ∈ l
                   /\ serves H client authCreds pkgURLBase expectedBytes source = true)
            /\ fst (fetchPkgPart H client authCreds pkgURLBase partPath expectedBytes l v)
                 ≠ Panicked).
  { intros l v Hl. rewrite fetchPkgPart_opened by exact Hopen. unfold download.
    destruct (trySources_answered H client authCreds pkgURLBase partPath expectedBytes
                Hopen Hwrite l None (snd (os_OpenFile H partPath v)) Hl)
      as [(v' & Hloop & Hsome) | (ff' & v' & Hloop & Hnone)]; rewrite Hloop; cbn [fst].
    - split; [tauto|discriminate].
    - split; [|discriminate]. split; [discriminate|].
      intros (source & Hin & Hs). rewrite (Hnone source Hin) in Hs. discriminate. }
  destruct (Hfetch sources w Hanswer) as [Hiff Hsafe].
  destruct (Hfetch sources' w' Hanswer') as [Hiff' Hsafe'].
  split; [|split; [|split; assumption]].
  - rewrite !verifySignatureWithAnyKey_any by assumption.
    split; intros (sig & Hin & Hok); exists sig; split; try assumption.
    + rewrite <- Hsigs. exact Hin.
    + rewrite Hsigs. exact Hin.
  - rewrite Hiff, Hiff'.
    split; intros (source & Hin & Hok); exists source; split; try assumption.
    + rewrite <- Hsources. exact Hin.
    + rewrite Hsources. exact Hin.
Qed.

Lemma reordering_keeps_outcome_witness :
  (fst (verifySignatureWithAnyKey pkg_host "key" "keys" abc ["other"; "good"] no_files) = None
   <-> fst (verifySignatureWithAnyKey pkg_host "key" "keys" abc ["good"; "other"] no_files) = None)
  /\ (fst (fetchPkgPart pkg_host None [] "http://h/pkg" "/d/p1" 3
             [{| URL := "http://h/403" |}; {| URL := "/p1" |}] no_files) = Returned None
      <-> fst (fetchPkgPart pkg_host None [] "http://h/pkg" "/d/p1" 3
             [{| URL := "/p1" |}; {| URL := "http://h/403" |}] no_files) = Returned None).
Proof.
  destruct (reordering_keeps_outcome pkg_host None [] "http://h/pkg" "/d/p1" "key" "keys" 3 abc
              ["other"; "good"] ["good"; "other"]
              [{| URL := "http://h/403" |}; {| URL := "/p1" |}]
              [{| URL := "/p1" |}; {| URL := "http://h/403" |}] no_files no_files)
    as (Hsig & Hsrc & _).
  - apply perm_swap.
  - apply perm_swap.
  - intros sig Hin. apply list_elem_of_In in Hin. cbn in Hin.
    destruct Hin as [<- | [<- | []]]; reflexivity.
  - reflexivity.
  - reflexivity.
  - intros source Hin. apply list_elem_of_In in Hin. cbn in Hin.
    destruct Hin as [<- | [<- | []]]; reflexivity.
  - split; assumption.
Defined.

(** ** The orchestrator *)

(** os.OpenFile returns a file exactly when it returns no error. *)
Lemma os_OpenFile_handle (H : Host) (path : string) (w w' : World) (f : option string) :
  os_OpenFile H path w = ((f, None), w') -> f = Some path.
Proof.
  unfold os_OpenFile. destruct (fs_fault H OpOpenFile path); [discriminate|].
  destruct (files w !! path); congruence.
Qed.

(** With an open part file the loop panics only on a request that got no
    response. *)
Lemma trySources_no_panic (H : Host) (client : option Z)
    (authCreds : list (string * gmap string string)) (pkgURLBase partPath : string)
    (expectedBytes : Z) (sources : list PartSource) (name : string)
    (ff : option partFetchFailure) (w : World) :
  always_responds H ->
  fst (trySources H client authCreds pkgURLBase partPath expectedBytes sources (Some name) ff w)
    ≠ Panicked.
Proof.
  intros Hresp. revert name ff w.
  induction sources as [|source rest IH]; intros name ff w; [discriminate|].
  cbn [trySources]. destruct (authenticatedRequest H _ authCreds) as [req|err]; [|discriminate].
  destruct (client_Do H client req) as [response|[response|] err] eqn:Hdo.
  - case_bool_decide; [apply IH|].
    destruct (io_Copy H (Some name) response _) as [[n [err|]] w1] eqn:Hcopy; [discriminate|].
    case_bool_decide; [|discriminate].
    cbn [tryRemove].
    destruct (os_Remove H name w1) as [rmErr w2].
    destruct (os_OpenFile H partPath w2) as [[f [err|]] w3] eqn:Hopen; [discriminate|].
    rewrite (os_OpenFile_handle _ _ _ _ _ Hopen). apply IH.
  - apply IH.
  - exfalso. exact (Hresp _ _ _ Hdo).
Qed.

Lemma download_no_panic (H : Host) (client : option Z)
    (authCreds : list (string * gmap string string)) (pkgURLBase partPath : string)
    (expectedBytes : Z) (sources : list PartSource) (name : string) (w : World) :
  always_responds H ->
  fst (download H client authCreds pkgURLBase partPath expectedBytes sources (Some name) w)
    ≠ Panicked.
Proof.
  intros Hresp. unfold download.
  pose proof (trySources_no_panic H client authCreds pkgURLBase partPath expectedBytes
                sources name None w Hresp) as Hloop.
  destruct (trySources H client authCreds pkgURLBase partPath expectedBytes sources
              (Some name) None w) as [[[err|ff]|] w1]; cbn in *; congruence.
Qed.

(** When the part file can be opened or created, fetchPkgPart panics only
    on a request that got no response. *)
Lemma fetchPkgPart_no_panic (H : Host) (client : option Z)
    (authCreds : list (string * gmap string string)) (pkgURLBase partPath : string)
    (expectedBytes : Z) (sources : list PartSource) (w : World) :
  always_responds H ->
  fs_fault H OpOpenFile partPath = None ->
  fst (fetchPkgPart H client authCreds pkgURLBase partPath expectedBytes sources w) ≠ Panicked.
Proof.
  intros Hresp Hopen. rewrite fetchPkgPart_opened by exact Hopen.
  apply download_no_panic, Hresp.
Qed.

Section Join.
Variable H : Host.
Variable authCreds : list (string * gmap string string).
Variable pkgURLBase : string.
Variable parts : gmap string DockerImagePart.
Variable destinationDir primarySigningKey userKeysDir : string.

Local Abbreviation step1 :=
  (step H authCreds pkgURLBase parts destinationDir primarySigningKey userKeysDir).
Local Abbreviation partPath_of name := (path_Join H destinationDir name).

(** addResult records an error under the id, or appends the absolute
    path, or (for an empty path) does nothing. *)
Lemma addResult_effect (id : string) (err : option error) (partPath : string)
    (st : Orchestration) :
  let st' := addResult H id err partPath st in
  world st' = world st /\ stages st' = stages st /\ crashed st' = crashed st
  /\ ((exists e, fetchErrs st' = <[id := e]> (fetchErrs st))
      \/ (err = None /\ fetchErrs st' = fetchErrs st
          /\ ((partPath = "" /\ fetched st' = fetched st)
              \/ (partPath ≠ "" /\ exists abs, filepath_Abs H partPath = inl abs
                   /\ fetched st' = (fetched st ++ [abs])%list)))).
Proof.
  unfold addResult. destruct err as [e|]; cbn.
  { repeat split; eauto. }
  case_bool_decide as Hp.
  - destruct (filepath_Abs H partPath) as [abs|e] eqn:Habs; cbn.
    + repeat split. right. repeat split. right. split; [exact Hp|]. eauto.
    + repeat split; eauto.
  - repeat split. right. repeat split. left. split; [|reflexivity].
    destruct (decide (partPath = "")); tauto.
Qed.

(** What one step does to the recorder and to the stages. *)
Lemma step_effect (name : string) (st : Orchestration) :
  let st' := step1 name st in
  (stages st' = stages st /\ fetchErrs st' = fetchErrs st /\ fetched st' = fetched st)
  \/ (exists s0 s1,
        stages st !! name = Some s0 /\ s0 ≠ Finished
        /\ stages st' = <[name := s1]> (stages st)
        /\ (fetchErrs st' ≠ ∅
            \/ (s1 ≠ Finished /\ fetchErrs st' = fetchErrs st /\ fetched st' = fetched st)
            \/ (s1 = Finished /\ fetchErrs st' = fetchErrs st
                /\ fetched st' = (fetched st ++ verified_path H destinationDir name)%list
                /\ (partPath_of name ≠ "" ->
                    exists abs, filepath_Abs H (partPath_of name) = inl abs)))).
Proof.
  cbv zeta. unfold step. destruct (crashed st); [left; auto|].
  destruct (parts !! name) as [part|]; [|left; auto].
  destruct (stages st !! name) as [[| | |]|] eqn:Hstage; try (left; solve [auto]).
  - destruct (fetchPkgPart H _ authCreds pkgURLBase _ _ _ (world st)) as [[err|] w];
      [|left; auto].
    right. exists AtFetch, AtCheck.
    split; [reflexivity|]. split; [discriminate|].
    destruct (addResult_effect name err "" (set_world w st))
      as (_ & Hkeep & _ & [[e He] | (_ & Herrs & [[_ Hf] | [Hne _]])]);
      (split; [cbn; rewrite Hkeep; reflexivity|]); cbn.
    + left. rewrite He. apply insert_non_empty.
    + right. left. split; [discriminate|]. split; assumption.
    + contradiction.
  - right. case_bool_decide as Hsize.
    + exists AtCheck, AtVerify.
      split; [reflexivity|]. split; [discriminate|]. split; [reflexivity|].
      right. left. split; [discriminate|]. split; reflexivity.
    + exists AtCheck, Finished.
      split; [reflexivity|]. split; [discriminate|]. split; [reflexivity|].
      left. cbn. intros Hempty. apply Hsize. rewrite Hempty. apply map_size_empty.
  - destruct (verifyPkgPart H primarySigningKey userKeysDir _ _ _ (world st)) as [err w].
    right. exists AtVerify, Finished.
    split; [reflexivity|]. split; [discriminate|].
    destruct (addResult_effect name err (partPath_of name) (set_world w st))
      as (_ & Hkeep & _ & [[e He] | (_ & Herrs & [[Hp Hf] | (Hp & abs & Habs & Hf)])]);
      (split; [cbn; rewrite Hkeep; reflexivity|]); cbn.
    + left. rewrite He. apply insert_non_empty.
    + right. right. split; [reflexivity|]. split; [assumption|]. split.
      * rewrite Hf. unfold verified_path. rewrite bool_decide_false by tauto.
        cbn. rewrite app_nil_r. reflexivity.
      * tauto.
    + right. right. split; [reflexivity|]. split; [assumption|]. split.
      * rewrite Hf. unfold verified_path. rewrite bool_decide_true by assumption.
        rewrite Habs. reflexivity.
      * eauto.
Qed.

Lemma step_settled (name : string) (st : Orchestration) :
  settled H destinationDir st -> settled H destinationDir (step1 name st).
Proof.
  intros Hst.
  destruct (step_effect name st)
    as [(Hs & He & Hf) | (s0 & s1 & Hs0 & Hne0 & Hs & [Herr | [Hmid | Hend]])].
  - unfold settled. rewrite Hs, He, Hf. exact Hst.
  - intros Hempty. contradiction.
  - destruct Hmid as (Hne1 & He & Hf). unfold settled. rewrite Hs, He, Hf.
    intros Hempty. destruct (Hst Hempty) as (names & Hnd & Hin & Hpaths & Habs).
    exists names. repeat split; try assumption.
    + intros Hn. destruct (decide (n = name)) as [->|Hother].
      * apply Hin in Hn. congruence.
      * rewrite lookup_insert_ne by congruence. apply Hin, Hn.
    + intros Hn. destruct (decide (n = name)) as [->|Hother].
      * rewrite lookup_insert_eq in Hn. congruence.
      * rewrite lookup_insert_ne in Hn by congruence. apply Hin, Hn.
  - destruct Hend as (-> & He & Hf & Habs1). unfold settled. rewrite Hs, He, Hf.
    intros Hempty. destruct (Hst Hempty) as (names & Hnd & Hin & Hpaths & Habs).
    assert (Hfresh : name ∉ names).
    { intros Hn. apply Hin in Hn. congruence. }
    exists (names ++ [name])%list. repeat split.
    + apply NoDup_app. repeat split; [exact Hnd | | apply NoDup_singleton].
      intros n Hn Hn'. apply list_elem_of_singleton in Hn'. subst n. contradiction.
    + intros Hn. apply elem_of_app in Hn as [Hn|Hn].
      * destruct (decide (n = name)) as [->|Hother]; [contradiction|].
        rewrite lookup_insert_ne by congruence. apply Hin, Hn.
      * apply list_elem_of_singleton in Hn. subst n. apply lookup_insert_eq.
    + intros Hn. apply elem_of_app. destruct (decide (n = name)) as [->|Hother].
      * right. apply list_elem_of_singleton. reflexivity.
      * left. rewrite lookup_insert_ne in Hn by congruence. apply Hin, Hn.
    + rewrite Hpaths, flat_map_app. cbn. rewrite app_nil_r. reflexivity.
    + intros n Hn Hp. apply elem_of_app in Hn as [Hn|Hn]; [eauto|].
      apply list_elem_of_singleton in Hn. subst n. auto.
Qed.

(** After a panic nothing runs any more. *)
Lemma step_crashed (name : string) (st : Orchestration) :
  crashed st = true -> step1 name st = st.
Proof. unfold step. intros ->. reflexivity. Qed.

Lemma step_alive (name : string) (st : Orchestration) :
  crashed (step1 name st) = false -> crashed st = false.
Proof.
  destruct (crashed st) eqn:Hc; [|reflexivity].
  rewrite step_crashed by exact Hc. congruence.
Qed.

(** On a host that always responds and opens the part files no step
    panics. *)
Lemma step_no_crash (name : string) (st : Orchestration) :
  always_responds H -> opens_part_files H ->
  crashed st = false -> crashed (step1 name st) = false.
Proof.
  intros Hresp Hexcl Hc. unfold step. rewrite Hc.
  destruct (parts !! name) as [part|]; [|exact Hc].
  destruct (stages st !! name) as [[| | |]|]; try exact Hc.
  - pose proof (fetchPkgPart_no_panic H (Some (timeoutS (Bytes part))) authCreds pkgURLBase
                  (partPath_of name) (Bytes part) (Sources part) (world st) Hresp
                  (Hexcl (partPath_of name))) as Hsafe.
    destruct (fetchPkgPart H _ authCreds pkgURLBase _ _ _ (world st)) as [[err|] w];
      [|contradiction].
    cbn. destruct (addResult_effect name err "" (set_world w st)) as (_ & _ & -> & _).
    exact Hc.
  - case_bool_decide; exact Hc.
  - destruct (verifyPkgPart H primarySigningKey userKeysDir _ _ _ (world st)) as [err w].
    cbn. destruct (addResult_effect name err (partPath_of name) (set_world w st))
      as (_ & _ & -> & _).
    exact Hc.
Qed.

(** A goroutine moves one stage forward with each of its steps. *)
Lemma step_advances (name : string) (part : DockerImagePart) (s : stage)
    (st : Orchestration) :
  parts !! name = Some part ->
  stages st !! name = Some s ->
  crashed (step1 name st) = false ->
  stages (step1 name st) !! name
  = Some match s with
         | AtFetch => AtCheck
         | AtCheck => if bool_decide (size (fetchErrs st) = 0) then AtVerify else Finished
         | AtVerify | Finished => Finished
         end.
Proof.
  intros Hpart Hstage Halive. pose proof (step_alive _ _ Halive) as Hc.
  unfold step in *. rewrite Hc, Hpart, Hstage in *. destruct s.
  - destruct (fetchPkgPart H _ authCreds pkgURLBase _ _ _ (world st)) as [[err|] w];
      [|discriminate].
    cbn. apply lookup_insert_eq.
  - case_bool_decide; cbn; apply lookup_insert_eq.
  - destruct (verifyPkgPart H primarySigningKey userKeysDir _ _ _ (world st)) as [err w].
    cbn. apply lookup_insert_eq.
  - exact Hstage.
Qed.

Lemma three_steps_finish (name : string) (st : Orchestration) :
  is_Some (parts !! name) ->
  is_Some (stages st !! name) ->
  crashed (step1 name (step1 name (step1 name st))) = false ->
  stages (step1 name (step1 name (step1 name st))) !! name = Some Finished.
Proof.
  intros [part Hpart] [s Hstage] Hc3.
  pose proof (step_alive _ _ Hc3) as Hc2. pose proof (step_alive _ _ Hc2) as Hc1.
  pose proof (step_advances _ _ _ _ Hpart Hstage Hc1) as H1.
  pose proof (step_advances _ _ _ _ Hpart H1 Hc2) as H2.
  pose proof (step_advances _ _ _ _ Hpart H2 Hc3) as H3.
  rewrite H3. destruct s; repeat case_bool_decide; reflexivity.
Qed.

Lemma step_keeps_finished (name n : string) (st : Orchestration) :
  stages st !! n = Some Finished -> stages (step1 name st) !! n = Some Finished.
Proof.
  intros Hn.
  destruct (step_effect name st) as [(Hs & _) | (s0 & s1 & Hs0 & Hne0 & Hs & _)];
    rewrite Hs; [exact Hn|].
  rewrite lookup_insert_ne; [exact Hn|]. intros ->. congruence.
Qed.

(** The goroutines are those of the parts, at every moment. *)
Lemma step_keeps_goroutines (name : string) (st : Orchestration) :
  (forall n, is_Some (stages st !! n) <-> is_Some (parts !! n)) ->
  forall n, is_Some (stages (step1 name st) !! n) <-> is_Some (parts !! n).
Proof.
  intros Hkeys n.
  destruct (step_effect name st) as [(Hs & _) | (s0 & s1 & Hs0 & Hne0 & Hs & _)];
    rewrite Hs; [apply Hkeys|].
  rewrite <- Hkeys. destruct (decide (name = n)) as [->|Hne].
  - rewrite lookup_insert_eq, Hs0. split; eauto.
  - rewrite lookup_insert_ne by exact Hne. reflexivity.
Qed.

(** A path enters the list only in the step that has just seen
    verifyPkgPart return nil for the part. *)
Lemma step_fetched_verified (name : string) (st : Orchestration) :
  fetched (step1 name st) ≠ fetched st ->
  exists part,
    parts !! name = Some part /\ stages st !! name = Some AtVerify
    /\ fst (verifyPkgPart H primarySigningKey userKeysDir (partPath_of name)
              (Sha256sum part) (Signatures part) (world st)) = None.
Proof.
  unfold step. destruct (crashed st); [congruence|].
  destruct (parts !! name) as [part|]; [|congruence].
  destruct (stages st !! name) as [[| | |]|]; try congruence.
  - destruct (fetchPkgPart H _ authCreds pkgURLBase _ _ _ (world st)) as [[[e|]|] w];
      unfold addResult; try rewrite bool_decide_false by (intros Hne; apply Hne; reflexivity);
      cbn; congruence.
  - case_bool_decide; cbn; congruence.
  - cbv zeta.
    destruct (verifyPkgPart H primarySigningKey userKeysDir _ _ _ (world st))
      as [[e|] w] eqn:Hverify; cbn; [congruence|].
    intros _. exists part. rewrite Hverify. auto.
Qed.

Lemma step_stays_crashed (name : string) (st : Orchestration) :
  crashed st = true -> crashed (step1 name st) = true.
Proof. intros Hc. rewrite step_crashed by exact Hc. exact Hc. Qed.

(** A part whose fetch panics stays at its first step until that step is
    taken, and that step ends the program. *)
Lemma step_pending_panic (name n : string) (part : DockerImagePart) (st : Orchestration) :
  parts !! name = Some part ->
  (forall w, fst (fetchPkgPart H (Some (timeoutS (Bytes part))) authCreds pkgURLBase
                    (partPath_of name) (Bytes part) (Sources part) w) = Panicked) ->
  crashed st = true \/ stages st !! name = Some AtFetch ->
  (crashed (step1 n st) = true \/ stages (step1 n st) !! name = Some AtFetch)
  /\ (n = name -> crashed (step1 n st) = true).
Proof.
  intros Hpart Hpanic [Hc | Hstage].
  { split; [left|intros _]; apply step_stays_crashed, Hc. }
  destruct (decide (n = name)) as [->|Hne].
  - assert (Hcrash : crashed (step1 name st) = true).
    { unfold step. destruct (crashed st) eqn:Hc; [exact Hc|].
      rewrite Hpart, Hstage. specialize (Hpanic (world st)).
      destruct (fetchPkgPart H _ authCreds pkgURLBase _ _ _ (world st)) as [[err|] w0];
        [discriminate|reflexivity]. }
    auto.
  - split; [|contradiction]. right.
    destruct (step_effect n st) as [(Hs & _) | (s0 & s1 & _ & _ & Hs & _)];
      rewrite Hs; [exact Hstage|].
    rewrite lookup_insert_ne by exact Hne. exact Hstage.
Qed.
End Join.

Lemma foldl_invariant {A B : Type} (P : A -> Prop) (f : A -> B -> A) (l : list B) (a : A) :
  (forall a b, P a -> P (f a b)) -> P a -> P (foldl f a l).
Proof.
  intros Hstep. revert a. induction l as [|b l IH]; intros a Ha; [exact Ha|].
  cbn. apply IH, Hstep, Ha.
Qed.

Lemma elem_of_part_names (parts : gmap string DockerImagePart) (n : string) :
  n ∈ (map_to_list parts).*1 <-> is_Some (parts !! n).
Proof.
  rewrite list_elem_of_fmap. split.
  - intros ([k part] & -> & Hin). apply elem_of_map_to_list in Hin. cbn. eauto.
  - intros [part Hpart]. exists (n, part). split; [reflexivity|].
    apply elem_of_map_to_list. exact Hpart.
Qed.

Section Joined.
Variable H : Host.
Variable authCreds : list (string * gmap string string).
Variable pkgURLBase : string.
Variable parts : gmap string DockerImagePart.
Variable destinationDir primarySigningKey userKeysDir : string.

Local Abbreviation step1 :=
  (step H authCreds pkgURLBase parts destinationDir primarySigningKey userKeysDir).
Local Abbreviation run1 :=
  (run H authCreds pkgURLBase parts destinationDir primarySigningKey userKeysDir).
Local Abbreviation wait1 :=
  (wait H authCreds pkgURLBase parts destinationDir primarySigningKey userKeysDir).
Local Abbreviation joined1 :=
  (joined H authCreds pkgURLBase parts destinationDir primarySigningKey userKeysDir).

(** Whatever holds at the start and is kept by every step holds when
    group.Wait() returns. *)
Lemma joined_invariant (P : Orchestration -> Prop) (schedule : list string) (w : World) :
  (forall name st, P st -> P (step1 name st)) ->
  P (start parts w) -> P (joined1 schedule w).
Proof.
  intros Hstep Hstart. unfold joined, wait, run.
  apply foldl_invariant; [intros st name Hst; auto|].
  apply foldl_invariant; [intros st name Hst; auto|]. exact Hstart.
Qed.

Lemma joined_settled (schedule : list string) (w : World) :
  settled H destinationDir (joined1 schedule w).
Proof.
  apply joined_invariant; [intros name st; apply step_settled|].
  intros _. exists []. split; [apply NoDup_nil_2|]. split; [|split].
  - intros n. cbn. rewrite lookup_fmap. split; [intros Hn; inversion Hn|].
    destruct (parts !! n); discriminate.
  - reflexivity.
  - intros n Hn. inversion Hn.
Qed.

Lemma joined_goroutines (schedule : list string) (w : World) (n : string) :
  is_Some (stages (joined1 schedule w) !! n) <-> is_Some (parts !! n).
Proof.
  revert n.
  apply (joined_invariant (fun st => forall n, is_Some (stages st !! n) <-> is_Some (parts !! n))).
  - intros name st. apply step_keeps_goroutines.
  - intros n. cbn. rewrite lookup_fmap. apply fmap_is_Some.
Qed.

Lemma joined_no_crash (schedule : list string) (w : World) :
  always_responds H -> opens_part_files H -> crashed (joined1 schedule w) = false.
Proof.
  intros Hresp Hexcl.
  apply (joined_invariant (fun st => crashed st = false)); [|reflexivity].
  intros name st. apply step_no_crash; assumption.
Qed.

(** group.Wait() returns when every goroutine has finished. *)
Lemma wait_finishes (names : list string) (st : Orchestration) :
  (forall n, is_Some (stages st !! n) <-> is_Some (parts !! n)) ->
  (forall n, n ∈ names -> is_Some (parts !! n)) ->
  crashed (foldl (fun st name => step1 name (step1 name (step1 name st))) st names) = false ->
  forall n, n ∈ names ->
    stages (foldl (fun st name => step1 name (step1 name (step1 name st))) st names) !! n
    = Some Finished.
Proof.
  intros Hkeys. induction names as [|name names IH] using rev_ind; intros Hparts Halive n Hn.
  - inversion Hn.
  - rewrite foldl_snoc in *.
    set (st1 := foldl (fun st name => step1 name (step1 name (step1 name st))) st names) in *.
    assert (Hkeys1 : forall n, is_Some (stages st1 !! n) <-> is_Some (parts !! n)).
    { subst st1.
      apply (foldl_invariant
               (fun st => forall n, is_Some (stages st !! n) <-> is_Some (parts !! n)));
        [|exact Hkeys].
      intros a b Ha. do 3 apply step_keeps_goroutines. exact Ha. }
    destruct (decide (n = name)) as [->|Hne].
    + apply three_steps_finish; [|apply Hkeys1|exact Halive];
        apply Hparts, elem_of_app; right; apply list_elem_of_singleton; reflexivity.
    + do 3 apply step_keeps_finished. apply IH.
      * intros m Hm. apply Hparts, elem_of_app. left. exact Hm.
      * do 3 apply step_alive in Halive. exact Halive.
      * apply elem_of_app in Hn as [Hn|Hn]; [exact Hn|].
        apply list_elem_of_singleton in Hn. contradiction.
Qed.

(** A part whose fetch panics in every world ends the program in every
    schedule: its goroutine takes that step before group.Wait() returns. *)
Lemma joined_crash (name : string) (part : DockerImagePart) (schedule : list string)
    (w : World) :
  parts !! name = Some part ->
  (forall w0, fst (fetchPkgPart H (Some (timeoutS (Bytes part))) authCreds pkgURLBase
                     (path_Join H destinationDir name) (Bytes part) (Sources part) w0)
              = Panicked) ->
  crashed (joined1 schedule w) = true.
Proof.
  intros Hpart Hpanic.
  pose (pending := fun st : Orchestration =>
                     crashed st = true \/ stages st !! name = Some AtFetch).
  assert (Hstep : forall n st, pending st -> pending (step1 n st)).
  { intros n st Hst.
    exact (proj1 (step_pending_panic H authCreds pkgURLBase parts destinationDir
                    primarySigningKey userKeysDir name n part st Hpart Hpanic Hst)). }
  assert (Hrun : pending (run1 schedule (start parts w))).
  { unfold run. apply foldl_invariant; [intros st n; apply Hstep|].
    right. cbn. rewrite lookup_fmap, Hpart. reflexivity. }
  assert (Hin : name ∈ (map_to_list parts).*1) by (apply elem_of_part_names; eauto).
  unfold joined, wait.
  revert Hrun Hin. generalize (run1 schedule (start parts w)) as st.
  generalize ((map_to_list parts).*1) as names.
  induction names as [|n names IH]; intros st Hst Hin; [inversion Hin|].
  cbn [foldl]. apply elem_of_cons in Hin as [<- | Hin].
  - apply (foldl_invariant (fun st => crashed st = true)).
    + intros a b Ha. do 3 apply step_stays_crashed. exact Ha.
    + do 2 apply step_stays_crashed.
      exact (proj2 (step_pending_panic H authCreds pkgURLBase parts destinationDir
                      primarySigningKey userKeysDir name name part st Hpart Hpanic Hst)
               eq_refl).
  - apply IH; [|exact Hin]. do 3 apply Hstep. exact Hst.
Qed.

Lemma joined_finished (schedule : list string) (w : World) (n : string) :
  crashed (joined1 schedule w) = false ->
  is_Some (parts !! n) ->
  stages (joined1 schedule w) !! n = Some Finished.
Proof.
  intros Halive Hn. unfold joined, wait in *. apply wait_finishes.
  - apply (foldl_invariant
             (fun st => forall n, is_Some (stages st !! n) <-> is_Some (parts !! n))).
    + intros a b Ha. apply step_keeps_goroutines. exact Ha.
    + intros m. cbn. rewrite lookup_fmap. apply fmap_is_Some.
  - intros m Hm. apply elem_of_part_names. exact Hm.
  - exact Halive.
  - apply elem_of_part_names. exact Hn.
Qed.
End Joined.

(** C1 fails on the code: a request that gets no response makes the
    goroutine of its part panic (the nil response of line 228), and a panic
    in a goroutine ends the program, so fetchAndVerify does not return.
    Here the only source of part p1 does not answer: in every schedule the
    caller gets neither paths nor the mapping of the errors.  In the
    schedule that starts with p2 the error of p2 is already recorded, and
    no panic has happened, when the goroutine of p1 takes its step. *)
Theorem fetchAndVerify_no_response_panics :
  (forall schedule : list string,
     fst (fetchAndVerify pkg_host [] "http://h/pkg" silent_parts "/d" "key" "keys"
            schedule no_files) = Panicked)
  /\ (let st := run pkg_host [] "http://h/pkg" silent_parts "/d" "key" "keys" ["p2"]
                  (start silent_parts no_files) in
      crashed st = false
      /\ fetchErrs st
         = {["p2" := PkgSourceFetchAuthError
              "Authentication or Authorization error attempting to fetch part from URL: %v. HTTP Status code: %v"
              [OStr "http://h/403"; OInt 403]
              (Errorf "Part could not be fetched: %v from any of its sources: %v"
                 [OStr "/d/p2"; OSources [{| URL := "http://h/403" |}]])]}).
Proof.
  split; [|vm_compute; auto].
  intros schedule. unfold fetchAndVerify.
  rewrite (joined_crash pkg_host [] "http://h/pkg" silent_parts "/d" "key" "keys" "p1"
             {| PartID := "p1"; Bytes := 3; Sha256sum := "616263"; Signatures := ["good"];
                Sources := [{| URL := "http://h/down" |}] |} schedule no_files);
    [reflexivity | vm_compute; reflexivity |].
  intros w0. unfold fetchPkgPart, os_OpenFile. cbn [fs_fault pkg_host].
  destruct (files w0 !! path_Join pkg_host "/d" "p1"); reflexivity.
Qed.

(** p1 is fetched and verified before p2 fails: its path is not returned. *)
Lemma fetchAndVerify_drops_partial_success :
  fst (fetchAndVerify pkg_host [] "http://h/pkg" two_parts "/d" "key" "keys"
         ["p1"; "p1"; "p1"; "p2"] no_files)
  = Returned ([], Some (Errorf "Error fetching parts. Errors: %v"
       [ORecorder {["p2" := PkgSourceFetchAuthError
          "Authentication or Authorization error attempting to fetch part from URL: %v. HTTP Status code: %v"
          [OStr "http://h/403"; OInt 403]
          (Errorf "Part could not be fetched: %v from any of its sources: %v"
             [OStr "/d/p2"; OSources [{| URL := "http://h/403" |}]])]}])).
Proof. vm_compute. reflexivity. Qed.

Lemma fetchAndVerify_returns_all_paths :
  fst (fetchAndVerify pkg_host [] "http://h/pkg" (delete "p2" two_parts) "/d" "key" "keys"
         [] no_files)
  = Returned (["/d/p1"], None).
Proof. vm_compute. reflexivity. Qed.

(** * Further properties *)

(** ** Credentials *)

Lemma not_nonempty (s : string) : ~ s ≠ "" -> s = "".
Proof. intros Hs. destruct (decide (s = "")); tauto. Qed.

(** X1: authenticatedRequest attaches the credential of the first entry, in the
    order the map is visited, whose key is a prefix of the URL and whose
    username and password are both present and not empty; entries in front
    of it that match the URL but lack one of the two are passed over. *)
Theorem basicAuthFor_first_usable (pURL u p : string)
    (authCreds : list (string * gmap string string)) :
  basicAuthFor pURL authCreds = Some (u, p)
  <-> exists pre k v post,
        authCreds = (pre ++ (k, v) :: post)%list
        /\ String.prefix k pURL = true
        /\ v !! "username" = Some u /\ v !! "password" = Some p
        /\ u ≠ "" /\ p ≠ ""
        /\ forall k' v', (k', v') ∈ pre -> String.prefix k' pURL = true ->
             default "" (v' !! "username") = "" \/ default "" (v' !! "password") = "".
Proof.
  induction authCreds as [|[k v] rest IH]; cbn [basicAuthFor].
  - split; [discriminate|]. intros (pre & k & v & post & Heq & _).
    destruct pre; discriminate.
  - destruct (String.prefix k pURL) eqn:Hprefix.
    + destruct (bool_decide (default "" (v !! "username") ≠ "")
                && bool_decide (default "" (v !! "password") ≠ "")) eqn:Husable.
      * apply andb_prop in Husable as [Hu Hp]. apply bool_decide_eq_true in Hu, Hp.
        split.
        -- intros [= <- <-]. exists [], k, v, rest.
           destruct (v !! "username") as [u'|]; [|contradiction].
           destruct (v !! "password") as [p'|]; [|contradiction].
           cbn in *. repeat split; auto. intros k' v' Hin. inversion Hin.
        -- intros (pre & k0 & v0 & post & Heq & Hpre0 & Hu0 & Hp0 & Hne1 & Hne2 & Hskip).
           destruct pre as [|[k1 v1] pre].
           ++ injection Heq as <- <- _. rewrite Hu0, Hp0. reflexivity.
           ++ injection Heq as <- <- _.
              destruct (Hskip k v (list_elem_of_here _ _) Hprefix); contradiction.
      * rewrite IH. split.
        -- intros (pre & k0 & v0 & post & -> & Hrest). exists ((k, v) :: pre), k0, v0, post.
           destruct Hrest as (? & ? & ? & ? & ? & Hskip). repeat split; auto.
           intros k' v' Hin Hpre'. apply elem_of_cons in Hin as [[= -> ->]|Hin]; [|eauto].
           apply andb_false_iff in Husable as [Hf|Hf]; apply bool_decide_eq_false in Hf;
             [left|right]; apply not_nonempty, Hf.
        -- intros (pre & k0 & v0 & post & Heq & Hpre0 & Hu0 & Hp0 & Hne1 & Hne2 & Hskip).
           destruct pre as [|[k1 v1] pre].
           ++ injection Heq as <- <- _. rewrite Hu0, Hp0 in Husable. cbn in Husable.
              rewrite !bool_decide_true in Husable by assumption. discriminate.
           ++ injection Heq as <- <- ->. exists pre, k0, v0, post. repeat split; auto.
              intros k' v' Hin. apply Hskip. right. exact Hin.
    + rewrite IH. split.
      * intros (pre & k0 & v0 & post & -> & Hrest). exists ((k, v) :: pre), k0, v0, post.
        destruct Hrest as (? & ? & ? & ? & ? & Hskip). repeat split; auto.
        intros k' v' Hin Hpre'. apply elem_of_cons in Hin as [[= -> ->]|Hin]; [|eauto].
        congruence.
      * intros (pre & k0 & v0 & post & Heq & Hpre0 & Hu0 & Hp0 & Hne1 & Hne2 & Hskip).
        destruct pre as [|[k1 v1] pre].
        -- injection Heq as <- <- _. congruence.
        -- injection Heq as <- <- ->. exists pre, k0, v0, post. repeat split; auto.
           intros k' v' Hin. apply Hskip. right. exact Hin.
Qed.

(** X2: the request goes out without credentials exactly when every entry
    whose key is a prefix of the URL lacks a username or a password that is
    not empty. *)
Theorem basicAuthFor_none (pURL : string) (authCreds : list (string * gmap string string)) :
  basicAuthFor pURL authCreds = None
  <-> forall k v, (k, v) ∈ authCreds -> String.prefix k pURL = true ->
        default "" (v !! "username") = "" \/ default "" (v !! "password") = "".
Proof.
  induction authCreds as [|[k v] rest IH]; cbn [basicAuthFor].
  - split; [|reflexivity]. intros _ k v Hin. inversion Hin.
  - destruct (String.prefix k pURL) eqn:Hprefix.
    + destruct (bool_decide (default "" (v !! "username") ≠ "")
                && bool_decide (default "" (v !! "password") ≠ "")) eqn:Husable.
      * apply andb_prop in Husable as [Hu Hp]. apply bool_decide_eq_true in Hu, Hp.
        split; [discriminate|]. intros Hall.
        destruct (Hall k v (list_elem_of_here _ _) Hprefix); contradiction.
      * rewrite IH. split.
        -- intros Hall k' v' Hin Hpre'.
           apply elem_of_cons in Hin as [[= -> ->]|Hin]; [|eauto].
           apply andb_false_iff in Husable as [Hf|Hf]; apply bool_decide_eq_false in Hf;
             [left|right]; apply not_nonempty, Hf.
        -- intros Hall k' v' Hin. apply Hall. right. exact Hin.
    + rewrite IH. split.
      * intros Hall k' v' Hin Hpre'.
        apply elem_of_cons in Hin as [[= -> ->]|Hin]; [congruence|eauto].
      * intros Hall k' v' Hin. apply Hall. right. exact Hin.
Qed.

(** ** The precheck *)

Lemma precheckParts_result (images : gmap string string)
    (parts : list (string * DockerImagePart)) :
  match precheckParts images parts with
  | None => forall name part, (name, part) ∈ parts -> is_Some (images !! PartID part)
  | Some err =>
      exists name part,
        (name, part) ∈ parts /\ images !! PartID part = None
        /\ err = Errorf "Error in pkg file: Meta.Provides is expected to contain metadata about each part and it is missing info about part %v" [OPart part]
  end.
Proof.
  induction parts as [|[name part] rest IH]; cbn [precheckParts].
  - intros name part Hin. inversion Hin.
  - destruct (images !! PartID part) as [tag|] eqn:Himage.
    + destruct (precheckParts images rest) as [err|].
      * destruct IH as (n & q & Hin & Hq & ->). exists n, q. split; [right; exact Hin|auto].
      * intros n q Hin. apply elem_of_cons in Hin as [[= -> ->]|Hin]; [eauto|eauto].
    + exists name, part. split; [left|auto].
Qed.

(** X3: precheckPkgParts passes exactly when every part has an entry in
    Meta.Provides.Images under its ID field (not under its key in Parts);
    when it fails, the error names a part without such an entry. *)
Theorem precheckPkgParts_checks_every_part (pkg : Pkg) :
  (precheckPkgParts pkg = None
   <-> forall name part, Parts pkg !! name = Some part -> is_Some (Images pkg !! PartID part))
  /\ (forall err, precheckPkgParts pkg = Some err ->
        exists name part,
          Parts pkg !! name = Some part /\ Images pkg !! PartID part = None
          /\ err = Errorf "Error in pkg file: Meta.Provides is expected to contain metadata about each part and it is missing info about part %v" [OPart part]).
Proof.
  unfold precheckPkgParts.
  pose proof (precheckParts_result (Images pkg) (map_to_list (Parts pkg))) as Hres.
  destruct (precheckParts (Images pkg) (map_to_list (Parts pkg))) as [err|].
  - destruct Hres as (name & part & Hin & Hnone & ->).
    apply elem_of_map_to_list in Hin. split.
    + split; [discriminate|]. intros Hall. destruct (Hall name part Hin) as [tag Htag].
      congruence.
    + intros err [= <-]. eauto.
  - split; [|discriminate]. split; [|reflexivity].
    intros _ name part Hpart. apply (Hres name part), elem_of_map_to_list, Hpart.
Qed.

(** ** The manifest *)

Lemma fetchPkgMeta_success_effects (H : Host) (client : option Z)
    (authCreds : list (string * gmap string string))
    (primarySigningKey userKeysDir pkgURL pkgURLSignature destinationDir : string)
    (w w' : World) (pkg : Pkg) :
  fetchPkgMeta H client authCreds primarySigningKey userKeysDir pkgURL pkgURLSignature
    destinationDir w = (inl pkg, w') ->
  let req := {| reqURL := pkgURL; BasicAuth := basicAuthFor pkgURL authCreds |} in
  exists response,
    client_Do H client req = DoOk response
    /\ StatusCode response = 200%Z
    /\ VerifyWorkload H primarySigningKey pkgURLSignature (Body response) userKeysDir
         = (true, None)
    /\ json_Unmarshal H (Body response) = inl pkg
    /\ files w' !! path_Join H destinationDir (ID pkg ++ ".json") = Some (Body response)
    /\ files w' = <[path_Join H destinationDir (ID pkg ++ ".json") := Body response]> (files w)
    /\ requests w' = (requests w ++ [(client, req)])%list
    /\ sigchecks w' = (sigchecks w ++ [pkgURLSignature])%list
    /\ dirs w' = dirs w.
Proof.
  unfold fetchPkgMeta, authenticatedRequest.
  destruct (NewRequest H pkgURL); [discriminate|].
  destruct (client_Do H client _) as [response|response err] eqn:Hdo; [|discriminate].
  case_bool_decide as Hstatus; [discriminate|].
  assert (Hok : StatusCode response = 200%Z)
    by (destruct (decide (StatusCode response = 200%Z)); tauto).
  cbn [verifySignatureWithAnyKey].
  destruct (VerifyWorkload H primarySigningKey pkgURLSignature (Body response) userKeysDir)
    as [[|] [verr|]] eqn:Hverify; try discriminate.
  destruct (json_Unmarshal H (Body response)) as [pkg'|jerr] eqn:Hjson; [|discriminate].
  unfold writeFile, ioutil_WriteFile.
  destruct (fs_fault H OpWriteFile (path_Join H destinationDir (ID pkg' ++ ".json")));
    [discriminate|].
  destruct (fs_fault H OpWrite (path_Join H destinationDir (ID pkg' ++ ".json")));
    [discriminate|].
  intros [= -> <-]. exists response. cbn. rewrite lookup_insert_eq. auto 12.
Qed.

(** X4: when fetchPkgMeta returns a manifest, one GET went to the Pkg URL, it
    was answered 200, the one signature given was checked once and verified
    over the body, the body decoded to the manifest returned, and the body
    is now the content of destinationDir/ID.json, whatever was there. *)
Theorem fetchPkgMeta_success (H : Host) (client : option Z)
    (authCreds : list (string * gmap string string))
    (primarySigningKey userKeysDir pkgURL pkgURLSignature destinationDir : string)
    (w w' : World) (pkg : Pkg) :
  fetchPkgMeta H client authCreds primarySigningKey userKeysDir pkgURL pkgURLSignature
    destinationDir w = (inl pkg, w') ->
  let req := {| reqURL := pkgURL; BasicAuth := basicAuthFor pkgURL authCreds |} in
  exists response,
    client_Do H client req = DoOk response
    /\ StatusCode response = 200%Z
    /\ VerifyWorkload H primarySigningKey pkgURLSignature (Body response) userKeysDir
         = (true, None)
    /\ json_Unmarshal H (Body response) = inl pkg
    /\ files w' !! path_Join H destinationDir (ID pkg ++ ".json") = Some (Body response)
    /\ files w' = <[path_Join H destinationDir (ID pkg ++ ".json") := Body response]> (files w)
    /\ requests w' = (requests w ++ [(client, req)])%list
    /\ sigchecks w' = (sigchecks w ++ [pkgURLSignature])%list
    /\ dirs w' = dirs w.
Proof. apply fetchPkgMeta_success_effects. Qed.

Lemma fetchPkgMeta_success_witness :
  let w' := snd (fetchPkgMeta manifest_host None [] "key" "keys" "http://h/pkg/m.json" "good"
                   "/d" no_files) in
  files w' !! "/d/m.json" = Some abc /\ sigchecks w' = ["good"].
Proof.
  intros w'.
  destruct (fetchPkgMeta_success manifest_host None [] "key" "keys" "http://h/pkg/m.json"
              "good" "/d" no_files w' manifest)
    as (response & Hdo & _ & _ & _ & Hfile & _ & _ & Hsig & _).
  - vm_compute. reflexivity.
  - injection Hdo as <-. split; [exact Hfile|exact Hsig].
Defined.




(** ** Signatures *)

Lemma verifySignatureWithAnyKey_run (H : Host) (key dir : string) (hs : hasher)
    (signatures : list string) (w : World) :
  let r := verifySignatureWithAnyKey H key dir hs signatures w in
  fst r = None
  <-> exists pre sig post,
        signatures = (pre ++ sig :: post)%list
        /\ VerifyWorkload H key sig hs dir = (true, None)
        /\ (forall s, s ∈ pre -> VerifyWorkload H key s hs dir = (false, None))
        /\ sigchecks (snd r) = (sigchecks w ++ pre ++ [sig])%list.
Proof.
  cbv zeta. revert w. induction signatures as [|sig rest IH]; intros w.
  - cbn. split; [discriminate|]. intros (pre & s & post & Heq & _). destruct pre; discriminate.
  - cbn [verifySignatureWithAnyKey].
    destruct (VerifyWorkload H key sig hs dir) as [verified [err|]] eqn:Hv.
    + destruct verified; cbn; (split; [discriminate|]);
        intros (pre & s & post & Heq & Hs & Hpre & _); destruct pre as [|s' pre];
        injection Heq as <- _; try congruence;
        rewrite (Hpre sig) in Hv by left; discriminate.
    + destruct verified.
      * cbn. split; [|reflexivity]. intros _. exists [], sig, rest. repeat split; auto.
        intros s Hs. inversion Hs.
      * rewrite IH. cbn [log_sigcheck sigchecks]. split.
        -- intros (pre & s & post & -> & Hs & Hpre & Hlog).
           exists (sig :: pre), s, post. repeat split; auto.
           ++ intros s' Hs'. apply elem_of_cons in Hs' as [->|Hs']; auto.
           ++ rewrite Hlog, <- app_assoc. reflexivity.
        -- intros (pre & s & post & Heq & Hs & Hpre & Hlog). destruct pre as [|s' pre].
           ++ injection Heq as <- _. congruence.
           ++ injection Heq as <- ->. exists pre, s, post. repeat split; auto.
              ** intros s' Hs'. apply Hpre. right. exact Hs'.
              ** rewrite Hlog, <- app_assoc. reflexivity.
Qed.


(** ** Verifying a part, continued *)

(** X7: when verifyPkgPart returns nil, the part file was there, the hex
    digest of its content is the expected hash, one of the signatures
    verified over it, and the call has changed no file. *)
Theorem verifyPkgPart_nil_sound (H : Host) (key dir partPath partHash : string)
    (signatures : list string) (w w' : World) :
  verifyPkgPart H key dir partPath partHash signatures w = (None, w') ->
  exists content,
    files w !! partPath = Some content
    /\ partHash = hex (sha256_Sum H content)
    /\ (exists sig, sig ∈ signatures /\ VerifyWorkload H key sig content dir = (true, None))
    /\ files w' = files w.
Proof.
  unfold verifyPkgPart, os_Open, read_all.
  destruct (fs_fault H OpOpen partPath); [discriminate|].
  destruct (files w !! partPath) as [content|] eqn:Hfile; [|discriminate].
  destruct (fs_fault H OpRead partPath); [discriminate|].
  rewrite Hfile. cbn [default from_option id].
  case_bool_decide as Hhash.
  { destruct (os_Remove H partPath w). discriminate. }
  pose proof (verifySignatureWithAnyKey_run H key dir content signatures w) as Hfirst.
  pose proof (verifySignatureWithAnyKey_files H key dir content signatures w) as Hkeep.
  cbv zeta in Hfirst.
  destruct (verifySignatureWithAnyKey H key dir content signatures w) as [[e|] w1];
    [discriminate|].
  intros [= <-]. exists content. split; [reflexivity|].
  split; [exact Hhash|]. split; [|exact Hkeep].
  destruct (proj1 Hfirst eq_refl) as (pre & sig & post & -> & Hsig & _).
  exists sig. split; [|exact Hsig]. apply elem_of_app. right. left.
Qed.

Lemma verifyPkgPart_nil_sound_witness :
  exists content,
    ({["/d/p1" := abc]} : gmap string (list byte)) !! "/d/p1" = Some content
    /\ "616263" = hex content.
Proof.
  pose (w := {| files := {["/d/p1" := abc]}; dirs := ∅; requests := []; sigchecks := [] |}).
  destruct (verifyPkgPart_nil_sound pkg_host "key" "keys" "/d/p1" "616263" ["other"; "good"] w
              (snd (verifyPkgPart pkg_host "key" "keys" "/d/p1" "616263" ["other"; "good"] w)))
    as (content & Hfile & Hhash & _).
  - vm_compute. reflexivity.
  - exists content. split; [exact Hfile|exact Hhash].
Defined.

Lemma verifyPkgPart_effects (H : Host) (key dir partPath partHash : string)
    (signatures : list string) (w : World) :
  let r := verifyPkgPart H key dir partPath partHash signatures w in
  (forall p, p ≠ partPath -> files (snd r) !! p = files w !! p)
  /\ (files (snd r) !! partPath = files w !! partPath \/ files (snd r) !! partPath = None)
  /\ dirs (snd r) = dirs w
  /\ requests (snd r) = requests w.
Proof.
  assert (Hsig : forall hs v,
            let r := verifySignatureWithAnyKey H key dir hs signatures v in
            files (snd r) = files v /\ dirs (snd r) = dirs v /\ requests (snd r) = requests v).
  { intros hs. induction signatures as [|sig rest IH]; intros v; cbn; [auto|].
    destruct (VerifyWorkload H key sig hs dir) as [[|] [err|]]; cbn; auto.
    apply (IH (log_sigcheck sig v)). }
  cbv zeta. unfold verifyPkgPart, os_Open, read_all.
  destruct (fs_fault H OpOpen partPath); [cbn; auto|].
  destruct (files w !! partPath) as [content|] eqn:Hfile; [|cbn; auto].
  destruct (fs_fault H OpRead partPath); [cbn; auto|].
  case_bool_decide as Hhash.
  - unfold os_Remove. destruct (fs_fault H OpRemove partPath); [cbn; auto|].
    rewrite Hfile. cbn. split; [|split; [|auto]].
    + intros p Hp. apply lookup_delete_ne. congruence.
    + right. apply lookup_delete_eq.
  - rewrite Hfile. cbn [default from_option id].
    destruct (Hsig content w) as (Hf & Hd & Hr).
    destruct (verifySignatureWithAnyKey H key dir content signatures w) as [[e|] w1];
      cbn [fst snd] in *; rewrite Hf; auto.
Qed.

(** X8: verifyPkgPart touches no file but the part file, which it leaves as it
    was or removes; it makes no directory and sends no request. *)
Theorem verifyPkgPart_frame (H : Host) (key dir partPath partHash : string)
    (signatures : list string) (w : World) :
  let r := verifyPkgPart H key dir partPath partHash signatures w in
  (forall p, p ≠ partPath -> files (snd r) !! p = files w !! p)
  /\ (files (snd r) !! partPath = files w !! partPath \/ files (snd r) !! partPath = None)
  /\ dirs (snd r) = dirs w
  /\ requests (snd r) = requests w.
Proof. apply verifyPkgPart_effects. Qed.

Lemma hexdigit_lower (n : N) : is_lower_hex (hexdigit n) = true.
Proof.
  destruct n as [|p]; [reflexivity|].
  destruct p as [p|p|]; try reflexivity;
    destruct p as [p|p|]; try reflexivity;
    destruct p as [p|p|]; try reflexivity;
    destruct p as [p|p|]; reflexivity.
Qed.

(** The hex form of a digest has two characters a byte, all of them digits
    or lower-case letters a to f. *)
Lemma hex_shape (l : list byte) :
  String.length (hex l) = 2 * length l /\ all_lower_hex (hex l) = true.
Proof.
  induction l as [|b l [IHlen IHlow]]; [split; reflexivity|].
  split.
  - cbn [hex String.length length]. rewrite IHlen. lia.
  - unfold all_lower_hex in *. cbn [hex String.list_ascii_of_string forallb].
    rewrite !hexdigit_lower, IHlow. reflexivity.
Qed.

(** X9: the expected hash is compared as a string with the lower-case hex
    digest: an expected hash with an upper-case letter (or any character
    that is not a lower-case hex digit), or of odd length, never matches,
    whatever the content, and the part file is removed. *)
Theorem verifyPkgPart_malformed_hash (H : Host) (key dir partPath partHash : string)
    (signatures : list string) (content : list byte) (w : World) :
  files w !! partPath = Some content ->
  fs_fault H OpOpen partPath = None ->
  fs_fault H OpRead partPath = None ->
  fs_fault H OpRemove partPath = None ->
  all_lower_hex partHash = false \/ Nat.odd (String.length partHash) = true ->
  let r := verifyPkgPart H key dir partPath partHash signatures w in
  fst r = Some (PkgSignatureVerificationError
                  "Mismatch between expected hash, %v and actual hash."
                  [OStr partHash; OStr (hex (sha256_Sum H content))]
                  (Errorf "Part failed verification: %v" [OStr partPath]))
  /\ files (snd r) = delete partPath (files w)
  /\ sigchecks (snd r) = sigchecks w.
Proof.
  intros Hfile Hopen Hread Hremove Hbad r. subst r.
  rewrite (verifyPkgPart_readable H key dir partPath partHash signatures content w
             Hfile Hopen Hread).
  destruct (hex_shape (sha256_Sum H content)) as [Hlen Hlow].
  rewrite bool_decide_true.
  - unfold os_Remove. rewrite Hremove, Hfile. cbn. auto.
  - intros ->. destruct Hbad as [Hbad|Hbad]; [congruence|].
    rewrite Hlen, Nat.odd_mul in Hbad. discriminate.
Qed.

Lemma verifyPkgPart_malformed_hash_witness :
  files (snd (verifyPkgPart pkg_host "key" "keys" "/d/p1" "61626C" ["good"]
                {| files := {["/d/p1" := abc]}; dirs := ∅; requests := []; sigchecks := [] |}))
  = delete "/d/p1" {["/d/p1" := abc]}.
Proof.
  pose (w := {| files := {["/d/p1" := abc]}; dirs := ∅; requests := []; sigchecks := [] |}).
  destruct (verifyPkgPart_malformed_hash pkg_host "key" "keys" "/d/p1" "61626C" ["good"] abc w)
    as (_ & Hfiles & _); [reflexivity..| left; reflexivity |].
  exact Hfiles.
Defined.

(** ** Fetching a part, continued *)

Lemma only_touches_refl (partPath : string) (w : World) : only_touches partPath w w.
Proof. unfold only_touches. auto. Qed.

Lemma only_touches_trans (partPath : string) (w1 w2 w3 : World) :
  only_touches partPath w1 w2 -> only_touches partPath w2 w3 -> only_touches partPath w1 w3.
Proof.
  intros (Hf1 & Hd1 & Hs1) (Hf2 & Hd2 & Hs2). unfold only_touches.
  split; [|split; congruence]. intros p Hp. rewrite Hf2, Hf1 by exact Hp. reflexivity.
Qed.

Lemma only_touches_files (partPath : string) (w : World) (content : option (list byte))
    (f : gmap string (list byte) -> gmap string (list byte)) :
  (forall m p, p ≠ partPath -> f m !! p = m !! p) ->
  only_touches partPath w (set_files f w).
Proof. intros Hf. unfold only_touches. cbn. auto. Qed.

Section Effects.
Variable H : Host.
Variable client : option Z.
Variable authCreds : list (string * gmap string string).
Variable pkgURLBase partPath : string.
Variable expectedBytes : Z.

Local Abbreviation loop := (trySources H client authCreds pkgURLBase partPath expectedBytes).
Local Abbreviation request_of source :=
  {| reqURL := resolveURL pkgURLBase source;
     BasicAuth := basicAuthFor (resolveURL pkgURLBase source) authCreds |}.

Lemma os_OpenFile_cases (w : World) :
  (exists e,
      os_OpenFile H partPath w = ((None, Some (PathError "open" partPath e)), w)
      /\ fs_fault H OpOpenFile partPath = Some e)
  \/ (fs_fault H OpOpenFile partPath = None
      /\ exists w',
           os_OpenFile H partPath w = ((Some partPath, None), w')
           /\ only_touches partPath w w'
           /\ requests w' = requests w
           /\ is_Some (files w' !! partPath)
           /\ (forall c, files w !! partPath = Some c -> w' = w)).
Proof.
  unfold os_OpenFile. destruct (fs_fault H OpOpenFile partPath) as [e|]; [left; eauto|].
  right. split; [reflexivity|].
  destruct (files w !! partPath) as [c|] eqn:Hfile.
  - exists w. split; [reflexivity|]. split; [apply only_touches_refl|].
    split; [reflexivity|]. split; [rewrite Hfile; eauto|auto].
  - eexists. split; [reflexivity|]. split.
    + apply only_touches_files; [exact None|]. intros m p Hp.
      apply lookup_insert_ne. congruence.
    + split; [reflexivity|]. split; [cbn; rewrite lookup_insert_eq; eauto|discriminate].
Qed.

Lemma os_Remove_effects (w : World) :
  only_touches partPath w (snd (os_Remove H partPath w))
  /\ requests (snd (os_Remove H partPath w)) = requests w.
Proof.
  unfold os_Remove. destruct (fs_fault H OpRemove partPath);
    [split; auto using only_touches_refl|].
  destruct (files w !! partPath); [|split; auto using only_touches_refl].
  split; [|reflexivity]. apply only_touches_files; [exact None|].
  intros m p Hp. apply lookup_delete_ne. congruence.
Qed.

(** The copy into an open file either is refused at the first write, with
    nothing written, or writes the body over the start of the file. *)
Lemma io_Copy_file_cases (response : Response) (w : World) :
  (exists e, io_Copy H (Some partPath) response w = ((0%Z, Some e), w))
  \/ io_Copy H (Some partPath) response w
     = ((Z.of_nat (length (Body response)), BodyErr response),
        set_files <[partPath := (Body response
                                 ++ drop (length (Body response))
                                      (default [] (files w !! partPath)))%list]> w).
Proof.
  unfold io_Copy. destruct (fs_fault H OpWrite partPath) as [e|]; [|right; reflexivity].
  destruct (Body response); [right; reflexivity|left; eauto].
Qed.

(** The copy into a nil file fails at the first write; a body without a
    byte reaches none. *)
Lemma io_Copy_nil_cases (response : Response) (w : World) :
  (Body response ≠ [] /\ io_Copy H None response w = ((0%Z, Some ErrInvalid), w))
  \/ (Body response = [] /\ io_Copy H None response w = ((0%Z, BodyErr response), w)).
Proof.
  unfold io_Copy. destruct (Body response); [right; auto|left; split; [discriminate|reflexivity]].
Qed.

(** What one iteration of the loop does to the world. *)
Lemma trySources_iteration_effects (source : PartSource) (rest : list PartSource)
    (partFile : option string) (ff : option partFetchFailure) (w : World) :
  partFile = None \/ partFile = Some partPath ->
  (exists err,
      loop (source :: rest) partFile ff w = (Returned (Return (Some err)), w)
      /\ NewRequest H (resolveURL pkgURLBase source) = Some err)
  \/ exists w1,
       only_touches partPath w w1
       /\ requests w1 = (requests w ++ [(client, request_of source)])%list
       /\ NewRequest H (resolveURL pkgURLBase source) = None
       /\ (fs_fault H OpOpenFile partPath = None ->
           is_Some (files w !! partPath) -> is_Some (files w1 !! partPath))
       /\ ((exists err, loop (source :: rest) partFile ff w = (Returned (Return (Some err)), w1))
           \/ loop (source :: rest) partFile ff w = (Panicked, w1)
           \/ (loop (source :: rest) partFile ff w = (Returned (Return None), w1)
               /\ exists response,
                    client_Do H client (request_of source) = DoOk response
                    /\ StatusCode response = 200%Z
                    /\ BodyErr response = None
                    /\ Z.of_nat (length (Body response)) = expectedBytes
                    /\ ((partFile = Some partPath
                         /\ files w1 !! partPath
                            = Some (Body response
                                    ++ drop (length (Body response))
                                         (default [] (files w !! partPath)))%list)
                        \/ (partFile = None /\ Body response = [])))
           \/ loop (source :: rest) partFile ff w
              = loop rest partFile (source_failure H client authCreds pkgURLBase source) w1).
Proof.
  intros Hpf. unfold source_failure. cbn [trySources]. unfold authenticatedRequest.
  destruct (NewRequest H (resolveURL pkgURLBase source)) as [err|]; [left; eauto|].
  right.
  set (w0 := log_request client (request_of source) w).
  assert (Hw0 : only_touches partPath w w0) by (unfold only_touches; cbn; auto).
  assert (Hat0 : forall P : Prop,
            P -> only_touches partPath w w0
                 /\ requests w0 = (requests w ++ [(client, request_of source)])%list
                 /\ None = (None : option error)
                 /\ (fs_fault H OpOpenFile partPath = None ->
                     is_Some (files w !! partPath) -> is_Some (files w0 !! partPath))
                 /\ P).
  { intros P HP. split; [exact Hw0|]. split; [reflexivity|]. split; [reflexivity|].
    split; [intros _ Hthere; exact Hthere|exact HP]. }
  destruct (client_Do H client (request_of source)) as [response|[response|] err] eqn:Hdo.
  - case_bool_decide as Hcode.
    { exists w0. apply Hat0. right; right; right. reflexivity. }
    assert (Hok : StatusCode response = 200%Z)
      by (destruct (decide (StatusCode response = 200%Z)); tauto).
    destruct Hpf as [-> | ->].
    { destruct (io_Copy_nil_cases response w0) as [(_ & Hcopy) | (Hempty & Hcopy)];
        rewrite Hcopy.
      { exists w0. apply Hat0. left. eauto. }
      destruct (BodyErr response) as [berr|] eqn:Hbody.
      { exists w0. apply Hat0. left. eauto. }
      case_bool_decide as Hlen.
      { cbn [tryRemove]. exists w0. apply Hat0. right; left. reflexivity. }
      exists w0. apply Hat0. right; right; left. split; [reflexivity|].
      exists response. split; [reflexivity|]. split; [exact Hok|]. split; [exact Hbody|].
      split; [rewrite Hempty; exact Hlen|right; auto]. }
    destruct (io_Copy_file_cases response w0) as [(e & Hcopy) | Hcopy]; rewrite Hcopy.
    { exists w0. apply Hat0. left. eauto. }
    set (w1 := set_files _ w0).
    assert (Hw1 : only_touches partPath w w1).
    { unfold only_touches. cbn. split; [|auto].
      intros p Hp. apply lookup_insert_ne. congruence. }
    assert (Hfile1 : files w1 !! partPath
                     = Some (Body response
                             ++ drop (length (Body response))
                                  (default [] (files w !! partPath)))%list).
    { cbn. apply lookup_insert_eq. }
    assert (Hat1 : forall P : Prop,
              P -> only_touches partPath w w1
                   /\ requests w1 = (requests w ++ [(client, request_of source)])%list
                   /\ None = (None : option error)
                   /\ (fs_fault H OpOpenFile partPath = None ->
                       is_Some (files w !! partPath) -> is_Some (files w1 !! partPath))
                   /\ P).
    { intros P HP. split; [exact Hw1|]. split; [reflexivity|]. split; [reflexivity|].
      split; [intros _ _; rewrite Hfile1; eauto|exact HP]. }
    destruct (BodyErr response) as [berr|] eqn:Hbody.
    { exists w1. apply Hat1. left. eauto. }
    case_bool_decide as Hlen.
    2:{ exists w1. apply Hat1. right; right; left.
        split; [reflexivity|].
        exists response. split; [reflexivity|]. split; [exact Hok|].
        split; [exact Hbody|]. split; [exact Hlen|]. left. split; [reflexivity|exact Hfile1]. }
    cbn [tryRemove].
    destruct (os_Remove_effects w1) as [Hrm Hrmreq].
    destruct (os_Remove H partPath w1) as [rmErr w2]. cbn [snd] in Hrm, Hrmreq.
    destruct (os_OpenFile_cases w2)
      as [(e & Hopen & Hfault) | (Hfault & w3 & Hopen & Hop & Hopreq & Hthere & _)];
      rewrite Hopen.
    + exists w2. split; [eauto using only_touches_trans|].
      split; [rewrite Hrmreq; reflexivity|].
      split; [reflexivity|]. split; [intros Hmay; congruence|]. left. eauto.
    + exists w3. split; [eauto using only_touches_trans|].
      split; [rewrite Hopreq, Hrmreq; reflexivity|].
      split; [reflexivity|]. split; [intros _ _; exact Hthere|].
      right; right; right. reflexivity.
  - exists w0. apply Hat0. right; right; right. reflexivity.
  - exists w0. apply Hat0. right; left. reflexivity.
Qed.

(** What the whole loop does to the world: it touches no file but the
    part file, asks a front part of the sources, each once and in order,
    leaves a part file it found when the file can be opened, and returns
    nil only after a source has served the part: into the open file, or,
    without an open file, as a body of no byte. *)
Lemma trySources_effects (sources : list PartSource) (partFile : option string)
    (ff : option partFetchFailure) (w : World) :
  partFile = None \/ partFile = Some partPath ->
  let r := loop sources partFile ff w in
  only_touches partPath w (snd r)
  /\ (exists n, requests (snd r)
                = (requests w
                   ++ map (fun s => (client, request_of s)) (take n sources))%list)
  /\ (fs_fault H OpOpenFile partPath = None ->
      is_Some (files w !! partPath) -> is_Some (files (snd r) !! partPath))
  /\ (fst r = Returned (Return None) ->
      exists source response,
        source ∈ sources
        /\ serves H client authCreds pkgURLBase expectedBytes source = true
        /\ client_Do H client (request_of source) = DoOk response
        /\ ((partFile = Some partPath
             /\ exists tail, files (snd r) !! partPath = Some (Body response ++ tail)%list)
            \/ (partFile = None /\ Body response = []))).
Proof.
  intros Hpf. cbv zeta. revert ff w.
  induction sources as [|source rest IH]; intros ff w.
  - cbn. split; [apply only_touches_refl|]. split; [exists 0; cbn; rewrite app_nil_r; auto|].
    split; [auto|discriminate].
  - destruct (trySources_iteration_effects source rest partFile ff w Hpf)
      as [(err & Hrun & _) | (w1 & Hw1 & Hreq & Hnew & Hthere
                               & [(err & Hrun) | [Hrun | [(Hrun & Hdone) | Hrun]]])].
    + rewrite Hrun. cbn [fst snd]. split; [apply only_touches_refl|].
      split; [exists 0; cbn; rewrite app_nil_r; auto|]. split; [auto|discriminate].
    + rewrite Hrun. cbn [fst snd]. split; [exact Hw1|].
      split; [exists 1; exact Hreq|]. split; [exact Hthere|discriminate].
    + rewrite Hrun. cbn [fst snd]. split; [exact Hw1|].
      split; [exists 1; exact Hreq|]. split; [exact Hthere|discriminate].
    + rewrite Hrun. cbn [fst snd]. split; [exact Hw1|].
      split; [exists 1; exact Hreq|]. split; [exact Hthere|].
      intros _.
      destruct Hdone as (response & Hdo & Hcode & Hbody & Hlen & Hcontent).
      exists source, response.
      split; [left|]. split; [|split; [exact Hdo|]].
      * unfold serves, authenticatedRequest. rewrite Hnew, Hdo, Hbody.
        rewrite !bool_decide_true by assumption. reflexivity.
      * destruct Hcontent as [(Hfile & Hcontent) | Hnil]; [left|right; exact Hnil].
        split; [exact Hfile|]. eauto.
    + rewrite Hrun.
      destruct (IH (source_failure H client authCreds pkgURLBase source) w1)
        as (Hw & (n & Hn) & Hkeep & Hnil).
      split; [eauto using only_touches_trans|].
      split; [exists (S n); rewrite Hn, Hreq, <- app_assoc; reflexivity|].
      split; [auto|].
      intros Hres. destruct (Hnil Hres) as (s & response & Hin & Hrest).
      exists s, response. split; [right; exact Hin|exact Hrest].
Qed.

(** With no open file the loop writes nothing. *)
Lemma trySources_nil_file (sources : list PartSource) (ff : option partFetchFailure)
    (w : World) :
  files (snd (loop sources None ff w)) = files w.
Proof.
  revert ff w. induction sources as [|source rest IH]; intros ff w; [reflexivity|].
  cbn [trySources]. destruct (authenticatedRequest H _ authCreds) as [req|err]; [|reflexivity].
  destruct (client_Do H client req) as [response|[response|] err].
  - case_bool_decide; [rewrite IH; reflexivity|].
    destruct (io_Copy_nil_cases response (log_request client req w))
      as [(_ & Hcopy) | (_ & Hcopy)]; rewrite Hcopy; [reflexivity|].
    destruct (BodyErr response); [reflexivity|]. case_bool_decide; reflexivity.
  - rewrite IH. reflexivity.
  - reflexivity.
Qed.

Hypothesis may_open : fs_fault H OpOpenFile partPath = None.
Hypothesis may_write : fs_fault H OpWrite partPath = None.

(** Sources that fall through are passed, one request each. *)
Lemma trySources_skip (pre rest : list PartSource) (ff : option partFetchFailure) (w : World) :
  (forall p, p ∈ pre ->
     falls_through H client authCreds pkgURLBase expectedBytes p = true) ->
  exists ff' w',
    loop (pre ++ rest) (Some partPath) ff w = loop rest (Some partPath) ff' w'
    /\ requests w' = (requests w ++ map (fun s => (client, request_of s)) pre)%list.
Proof.
  revert ff w. induction pre as [|p pre IH]; intros ff w Hpre.
  - exists ff, w. cbn. rewrite app_nil_r. auto.
  - destruct (trySources_falls_through H client authCreds pkgURLBase partPath expectedBytes
                may_open may_write p (pre ++ rest) ff w) as (w1 & Hstep & Hreq1).
    { apply Hpre. left. }
    destruct (IH (source_failure H client authCreds pkgURLBase p) w1) as (ff' & w' & Hrest & Hreq).
    { intros q Hq. apply Hpre. right. exact Hq. }
    exists ff', w'. cbn [app]. rewrite Hstep, Hrest, Hreq, Hreq1. cbn [map].
    rewrite <- app_assoc. auto.
Qed.
End Effects.

(** What it means for a source to serve the part. *)
Lemma serves_inv (H : Host) (client : option Z) (authCreds : list (string * gmap string string))
    (pkgURLBase : string) (expectedBytes : Z) (source : PartSource) (response : Response) :
  serves H client authCreds pkgURLBase expectedBytes source = true ->
  client_Do H client {| reqURL := resolveURL pkgURLBase source;
                        BasicAuth := basicAuthFor (resolveURL pkgURLBase source) authCreds |}
  = DoOk response ->
  NewRequest H (resolveURL pkgURLBase source) = None
  /\ StatusCode response = 200%Z /\ BodyErr response = None
  /\ Z.of_nat (length (Body response)) = expectedBytes.
Proof.
  unfold serves, authenticatedRequest.
  destruct (NewRequest H (resolveURL pkgURLBase source)); [discriminate|].
  intros Hs Hdo. rewrite Hdo in Hs.
  apply andb_prop in Hs as [Hs Hlen]. apply andb_prop in Hs as [Hcode Hbody].
  apply bool_decide_eq_true in Hcode, Hlen.
  destruct (BodyErr response); [discriminate|]. auto.
Qed.

Section PartEffects.
Variable H : Host.
Variable client : option Z.
Variable authCreds : list (string * gmap string string).
Variable pkgURLBase partPath : string.
Variable expectedBytes : Z.

Local Abbreviation request_of source :=
  {| reqURL := resolveURL pkgURLBase source;
     BasicAuth := basicAuthFor (resolveURL pkgURLBase source) authCreds |}.
Local Abbreviation fetch :=
  (fetchPkgPart H client authCreds pkgURLBase partPath expectedBytes).
Local Abbreviation download1 :=
  (download H client authCreds pkgURLBase partPath expectedBytes).

Lemma download_effects (sources : list PartSource) (partFile : option string) (w : World) :
  partFile = None \/ partFile = Some partPath ->
  let r := download1 sources partFile w in
  only_touches partPath w (snd r)
  /\ (exists n, requests (snd r)
               = (requests w ++ map (fun s => (client, request_of s)) (take n sources))%list)
  /\ (fs_fault H OpOpenFile partPath = None ->
      is_Some (files w !! partPath) -> is_Some (files (snd r) !! partPath))
  /\ (fst r = Returned None ->
      exists source response,
        source ∈ sources
        /\ serves H client authCreds pkgURLBase expectedBytes source = true
        /\ client_Do H client (request_of source) = DoOk response
        /\ ((partFile = Some partPath
             /\ exists tail, files (snd r) !! partPath = Some (Body response ++ tail)%list)
            \/ (partFile = None /\ Body response = []))).
Proof.
  intros Hpf. cbv zeta. unfold download.
  pose proof (trySources_effects H client authCreds pkgURLBase partPath expectedBytes
                sources partFile None w Hpf) as Hloop.
  cbv zeta in Hloop.
  destruct (trySources H client authCreds pkgURLBase partPath expectedBytes sources partFile
              None w) as [[[err|ff]|] w1]; cbn [fst snd] in *;
    destruct Hloop as (Hw & Hn & Hkeep & Hnil);
    (split; [exact Hw|]); (split; [exact Hn|]); (split; [exact Hkeep|]).
  - intros [= ->]. auto.
  - discriminate.
  - discriminate.
Qed.

(** Without an open file the download writes nothing. *)
Lemma download_nil_file (sources : list PartSource) (w : World) :
  files (snd (download1 sources None w)) = files w.
Proof.
  unfold download.
  pose proof (trySources_nil_file H client authCreds pkgURLBase partPath expectedBytes
                sources None w) as Hloop.
  destruct (trySources H client authCreds pkgURLBase partPath expectedBytes sources None
              None w) as [[[err|ff]|] w1]; exact Hloop.
Qed.

Lemma fetchPkgPart_effects (sources : list PartSource) (w : World) :
  let r := fetch sources w in
  only_touches partPath w (snd r)
  /\ (exists n, requests (snd r)
               = (requests w ++ map (fun s => (client, request_of s)) (take n sources))%list)
  /\ (fs_fault H OpOpenFile partPath = None -> is_Some (files (snd r) !! partPath)).
Proof.
  cbv zeta. unfold fetchPkgPart.
  assert (Hstay : forall o : outcome (option error),
            only_touches partPath w (snd (o, w))
            /\ (exists n, requests (snd (o, w))
                  = (requests w ++ map (fun s => (client, request_of s)) (take n sources))%list)
            /\ (fs_fault H OpOpenFile partPath = None -> is_Some (files (snd (o, w)) !! partPath))
            \/ fs_fault H OpOpenFile partPath = None).
  { intros o. destruct (fs_fault H OpOpenFile partPath) eqn:Hfault; [left|right; reflexivity].
    split; [apply only_touches_refl|]. split; [|discriminate].
    exists 0. cbn. rewrite app_nil_r. reflexivity. }
  destruct (os_OpenFile_cases H partPath w)
    as [(e & Hopen & Hfault) | (Hfault & w1 & Hopen & Hw1 & Hreq1 & Hthere & _)];
    rewrite Hopen.
  - assert (Hrefused : forall o : outcome (option error),
              only_touches partPath w (snd (o, w))
              /\ (exists n, requests (snd (o, w))
                    = (requests w
                       ++ map (fun s => (client, request_of s)) (take n sources))%list)
              /\ (fs_fault H OpOpenFile partPath = None ->
                  is_Some (files (snd (o, w)) !! partPath))).
    { intros o. destruct (Hstay o) as [Hdone|Hnone]; [exact Hdone|congruence]. }
    cbn [os_IsExist]. destruct (errno_IsExist e).
    + destruct (os_Stat H partPath w) as [size|serr]; cbn [tryRemove];
        [case_bool_decide|]; apply Hrefused.
    + destruct (download_effects sources None w (or_introl eq_refl)) as (Hw & Hn & _).
      split; [exact Hw|]. split; [exact Hn|]. congruence.
  - destruct (download_effects sources (Some partPath) w1 (or_intror eq_refl))
      as (Hw & (n & Hn) & Hkeep & _).
    split; [eauto using only_touches_trans|]. split; [exists n; rewrite Hn, Hreq1; reflexivity|].
    intros _. apply Hkeep; assumption.
Qed.

(** X10: fetchPkgPart touches no file but the part file, makes no directory and
    checks no signature, whatever its outcome. *)
Theorem fetchPkgPart_frame (sources : list PartSource) (w : World) :
  let r := fetch sources w in
  (forall p, p ≠ partPath -> files (snd r) !! p = files w !! p)
  /\ dirs (snd r) = dirs w
  /\ sigchecks (snd r) = sigchecks w.
Proof. exact (proj1 (fetchPkgPart_effects sources w)). Qed.

(** X11: the requests of fetchPkgPart go to a front part of the source list,
    one request a source and in the order declared: no source is asked
    twice and none is asked before the sources in front of it. *)
Theorem fetchPkgPart_requests_in_order (sources : list PartSource) (w : World) :
  exists n,
    requests (snd (fetch sources w))
    = (requests w
       ++ map (fun s => (client,
                         {| reqURL := resolveURL pkgURLBase s;
                            BasicAuth := basicAuthFor (resolveURL pkgURLBase s) authCreds |}))
            (take n sources))%list.
Proof. exact (proj1 (proj2 (fetchPkgPart_effects sources w))). Qed.

(** X12: when the part file can be opened or created, fetchPkgPart leaves a
    file at the part path behind whatever its outcome: also when every
    source failed or the call panicked. *)
Theorem fetchPkgPart_leaves_file (sources : list PartSource) (w : World) :
  fs_fault H OpOpenFile partPath = None ->
  is_Some (files (snd (fetch sources w)) !! partPath).
Proof. exact (proj2 (proj2 (fetchPkgPart_effects sources w))). Qed.

(** X13: when opening is never refused for a file that exists, fetchPkgPart
    returns nil only if one of the sources answered 200 with a body of
    expectedBytes bytes, delivered to its end.  If the part file could be
    opened, it then begins with that body.  If the open was refused, the
    call went on with a nil file: nil is then returned only for a part of
    no byte, on a body without a byte, and no file has been written. *)
Theorem fetchPkgPart_nil_sound (sources : list PartSource) (w : World) :
  (forall e, fs_fault H OpOpenFile partPath = Some e -> errno_IsExist e = false) ->
  fst (fetch sources w) = Returned None ->
  exists source response,
    source ∈ sources
    /\ NewRequest H (resolveURL pkgURLBase source) = None
    /\ client_Do H client (request_of source) = DoOk response
    /\ StatusCode response = 200%Z
    /\ BodyErr response = None
    /\ Z.of_nat (length (Body response)) = expectedBytes
    /\ ((fs_fault H OpOpenFile partPath = None
         /\ exists tail,
              files (snd (fetch sources w)) !! partPath = Some (Body response ++ tail)%list)
        \/ (fs_fault H OpOpenFile partPath ≠ None
            /\ expectedBytes = 0%Z
            /\ Body response = []
            /\ files (snd (fetch sources w)) = files w)).
Proof.
  intros Hexcl. unfold fetchPkgPart.
  destruct (os_OpenFile_cases H partPath w)
    as [(e & Hopen & Hfault) | (Hfault & w1 & Hopen & _)]; rewrite Hopen.
  - cbn [os_IsExist]. rewrite (Hexcl e Hfault). intros Hnil.
    destruct (download_effects sources None w (or_introl eq_refl)) as (_ & _ & _ & Hsound).
    destruct (Hsound Hnil)
      as (source & response & Hin & Hs & Hdo & [([=] & _) | (_ & Hempty)]).
    destruct (serves_inv _ _ _ _ _ _ _ Hs Hdo) as (Hnew & Hcode & Hbody & Hlen).
    exists source, response. do 6 (split; [assumption|]). right.
    split; [congruence|]. split; [rewrite Hempty in Hlen; symmetry; exact Hlen|].
    split; [exact Hempty|]. exact (download_nil_file sources w).
  - intros Hnil.
    destruct (download_effects sources (Some partPath) w1 (or_intror eq_refl))
      as (_ & _ & _ & Hsound).
    destruct (Hsound Hnil)
      as (source & response & Hin & Hs & Hdo & [(_ & tail & Hfile) | ([=] & _)]).
    destruct (serves_inv _ _ _ _ _ _ _ Hs Hdo) as (Hnew & Hcode & Hbody & Hlen).
    exists source, response. do 6 (split; [assumption|]). left.
    split; [exact Hfault|]. exists tail. exact Hfile.
Qed.
End PartEffects.

Lemma fetchPkgPart_leaves_file_witness :
  is_Some (files (snd (fetchPkgPart pkg_host None [] "http://h/pkg" "/d/p9" 3
                         [{| URL := "http://h/403" |}] no_files)) !! "/d/p9").
Proof.
  apply (fetchPkgPart_leaves_file pkg_host None [] "http://h/pkg" "/d/p9" 3
           [{| URL := "http://h/403" |}] no_files).
  reflexivity.
Defined.

Lemma fetchPkgPart_nil_sound_witness :
  exists source, source ∈ [{| URL := "http://h/403" |}; {| URL := "/p1" |}]
                 /\ NewRequest pkg_host (resolveURL "http://h/pkg" source) = None.
Proof.
  destruct (fetchPkgPart_nil_sound pkg_host None [] "http://h/pkg" "/d/p1" 3
              [{| URL := "http://h/403" |}; {| URL := "/p1" |}] no_files)
    as (source & response & Hin & Hnew & _).
  - intros e. discriminate.
  - vm_compute. reflexivity.
  - exists source. split; [exact Hin|exact Hnew].
Defined.

Section Fallback.
Variable H : Host.
Variable client : option Z.
Variable authCreds : list (string * gmap string string).
Variable pkgURLBase partPath : string.
Variable expectedBytes : Z.

Local Abbreviation request_of source :=
  {| reqURL := resolveURL pkgURLBase source;
     BasicAuth := basicAuthFor (resolveURL pkgURLBase source) authCreds |}.
Local Abbreviation fetch :=
  (fetchPkgPart H client authCreds pkgURLBase partPath expectedBytes).

(** X14: the part file is opened without truncation and written from its
    start: when it exists and the first source serves the part, the call
    returns nil and the file holds the body followed by whatever the old
    content had beyond the body's length.  A longer old file keeps its
    length. *)
Theorem fetchPkgPart_keeps_stale_tail (source : PartSource) (rest : list PartSource)
    (response : Response) (old : list byte) (w : World) :
  fs_fault H OpOpenFile partPath = None ->
  fs_fault H OpWrite partPath = None ->
  files w !! partPath = Some old ->
  NewRequest H (resolveURL pkgURLBase source) = None ->
  client_Do H client (request_of source) = DoOk response ->
  StatusCode response = 200%Z ->
  BodyErr response = None ->
  Z.of_nat (length (Body response)) = expectedBytes ->
  let r := fetch (source :: rest) w in
  fst r = Returned None
  /\ files (snd r) !! partPath = Some (Body response ++ drop (length (Body response)) old)%list
  /\ (length (Body response) <= length old ->
      exists content, files (snd r) !! partPath = Some content /\ length content = length old).
Proof.
  intros Hopen Hwrite Hold Hnew Hdo Hcode Hbody Hlen r.
  assert (Hrun : fst r = Returned None
                 /\ files (snd r) !! partPath
                    = Some (Body response ++ drop (length (Body response)) old)%list).
  { subst r. rewrite fetchPkgPart_opened by exact Hopen.
    unfold os_OpenFile. rewrite Hopen, Hold. cbn [snd].
    unfold download. cbn [trySources]. unfold authenticatedRequest. rewrite Hnew, Hdo.
    rewrite bool_decide_false by (intros Hne; apply Hne, Hcode).
    unfold io_Copy. rewrite Hwrite, Hbody.
    rewrite bool_decide_false by (intros Hne; apply Hne, Hlen).
    cbn. rewrite lookup_insert_eq, Hold. auto. }
  destruct Hrun as [Hres Hfile]. split; [exact Hres|]. split; [exact Hfile|].
  intros Hshort. eexists. split; [exact Hfile|].
  rewrite length_app, length_drop. lia.
Qed.

Hypothesis may_open : fs_fault H OpOpenFile partPath = None.
Hypothesis may_write : fs_fault H OpWrite partPath = None.

(** X15: a source whose URL cannot be made into a request ends the fetch with
    the error of http.NewRequest: the sources behind it are not tried,
    even if one would serve the part. *)
Theorem fetchPkgPart_bad_url_ends_fallback (pre : list PartSource) (source : PartSource)
    (post : list PartSource) (err : error) (w : World) :
  (forall p, p ∈ pre ->
     falls_through H client authCreds pkgURLBase expectedBytes p = true) ->
  NewRequest H (resolveURL pkgURLBase source) = Some err ->
  let r := fetch (pre ++ source :: post) w in
  fst r = Returned (Some err)
  /\ requests (snd r) = (requests w ++ map (fun s => (client, request_of s)) pre)%list.
Proof.
  intros Hpre Hnew r. subst r. rewrite fetchPkgPart_opened by exact may_open.
  unfold download.
  destruct (trySources_skip H client authCreds pkgURLBase partPath expectedBytes
              may_open may_write pre (source :: post) None
              (snd (os_OpenFile H partPath w)) Hpre) as (ff' & w' & Hskip & Hreq).
  rewrite Hskip. cbn [trySources]. unfold authenticatedRequest. rewrite Hnew. cbn [fst snd].
  rewrite Hreq, os_OpenFile_requests. auto.
Qed.

(** X16: a source that answers 200 and whose body stream breaks ends the fetch
    with the copy error: unlike a body of the wrong length, it is not
    followed by the next source, and the bytes received stay in the part
    file. *)
Theorem fetchPkgPart_broken_stream_ends_fallback (pre : list PartSource) (source : PartSource)
    (post : list PartSource) (response : Response) (berr : error) (w : World) :
  (forall p, p ∈ pre ->
     falls_through H client authCreds pkgURLBase expectedBytes p = true) ->
  NewRequest H (resolveURL pkgURLBase source) = None ->
  client_Do H client (request_of source) = DoOk response ->
  StatusCode response = 200%Z ->
  BodyErr response = Some berr ->
  let r := fetch (pre ++ source :: post) w in
  fst r = Returned (Some (Errorf "IO copy from HTTP response body failed on part: %v. Error: %v"
                            [OStr partPath; OErr (Some berr)]))
  /\ requests (snd r)
     = (requests w ++ map (fun s => (client, request_of s)) (pre ++ [source]))%list
  /\ exists tail, files (snd r) !! partPath = Some (Body response ++ tail)%list.
Proof.
  intros Hpre Hnew Hdo Hcode Hbody r. subst r.
  rewrite fetchPkgPart_opened by exact may_open. unfold download.
  destruct (trySources_skip H client authCreds pkgURLBase partPath expectedBytes
              may_open may_write pre (source :: post) None
              (snd (os_OpenFile H partPath w)) Hpre) as (ff' & w' & Hskip & Hreq).
  rewrite Hskip. cbn [trySources]. unfold authenticatedRequest. rewrite Hnew, Hdo.
  rewrite bool_decide_false by (intros Hne; apply Hne, Hcode).
  unfold io_Copy. rewrite may_write, Hbody. cbn.
  rewrite Hreq, os_OpenFile_requests, map_app, app_assoc, lookup_insert_eq. eauto.
Qed.
End Fallback.

Lemma fetchPkgPart_keeps_stale_tail_witness :
  files (snd (fetchPkgPart pkg_host None [] "http://h/pkg" "/d/p1" 3 [{| URL := "/p1" |}]
                {| files := {["/d/p1" := ["x"; "y"; "z"; "1"; "2"]%byte]}; dirs := ∅;
                   requests := []; sigchecks := [] |})) !! "/d/p1"
  = Some ["a"; "b"; "c"; "1"; "2"]%byte.
Proof.
  pose (w := {| files := {["/d/p1" := ["x"; "y"; "z"; "1"; "2"]%byte]}; dirs := ∅;
                requests := []; sigchecks := [] |}).
  destruct (fetchPkgPart_keeps_stale_tail pkg_host None [] "http://h/pkg" "/d/p1" 3
              {| URL := "/p1" |} [] (answer 200 abc) ["x"; "y"; "z"; "1"; "2"]%byte w)
    as (_ & Hfile & _); [reflexivity..|].
  exact Hfile.
Defined.

Lemma fetchPkgPart_bad_url_ends_fallback_witness :
  let host := {|
    NewRequest := fun url =>
      if String.eqb url "::" then Some (LibError "net/url" "missing protocol scheme") else None;
    client_Do := client_Do pkg_host; sha256_Sum := sha256_Sum pkg_host;
    VerifyWorkload := VerifyWorkload pkg_host; json_Unmarshal := json_Unmarshal pkg_host;
    path_Join := path_Join pkg_host; filepath_Abs := filepath_Abs pkg_host;
    fs_fault := fs_fault pkg_host |} in
  fst (fetchPkgPart host None [] "http://h/pkg" "/d/p1" 3
         ([{| URL := "http://h/403" |}] ++ {| URL := "::" |} :: [{| URL := "/p1" |}]) no_files)
  = Returned (Some (LibError "net/url" "missing protocol scheme")).
Proof.
  intros host.
  apply (fetchPkgPart_bad_url_ends_fallback host None [] "http://h/pkg" "/d/p1" 3
           eq_refl eq_refl [{| URL := "http://h/403" |}] {| URL := "::" |}
           [{| URL := "/p1" |}] (LibError "net/url" "missing protocol scheme") no_files).
  - intros p Hp. apply list_elem_of_singleton in Hp. subst p. reflexivity.
  - reflexivity.
Defined.

Lemma fetchPkgPart_broken_stream_ends_fallback_witness :
  let broken := {| StatusCode := 200; Body := ["a"%byte];
                   BodyErr := Some (LibError "net/http" "unexpected EOF") |} in
  let host := {|
    NewRequest := NewRequest pkg_host;
    client_Do := fun timeout req =>
      if String.eqb (reqURL req) "http://h/cut" then DoOk broken
      else client_Do pkg_host timeout req;
    sha256_Sum := sha256_Sum pkg_host;
    VerifyWorkload := VerifyWorkload pkg_host; json_Unmarshal := json_Unmarshal pkg_host;
    path_Join := path_Join pkg_host; filepath_Abs := filepath_Abs pkg_host;
    fs_fault := fs_fault pkg_host |} in
  fst (fetchPkgPart host None [] "http://h/pkg" "/d/p1" 3
         ([] ++ {| URL := "http://h/cut" |} :: [{| URL := "/p1" |}]) no_files)
  = Returned (Some (Errorf "IO copy from HTTP response body failed on part: %v. Error: %v"
                      [OStr "/d/p1"; OErr (Some (LibError "net/http" "unexpected EOF"))])).
Proof.
  intros broken host.
  apply (fetchPkgPart_broken_stream_ends_fallback host None [] "http://h/pkg" "/d/p1" 3
           eq_refl eq_refl [] {| URL := "http://h/cut" |} [{| URL := "/p1" |}] broken
           (LibError "net/http" "unexpected EOF") no_files).
  - intros p Hp. inversion Hp.
  - reflexivity.
  - reflexivity.
  - reflexivity.
  - reflexivity.
Defined.



(** ** The timeout of a part *)

(** X18: parts of at most 1 MiB get 120 seconds.  Above that (and below 2^60
    bytes, where the product by 8 still fits an int64) the timeout is the
    size divided by 12800, which is less than 120 seconds for every part
    smaller than 1536000 bytes: such a part gets less time than a part of
    1 MiB. *)
Theorem timeoutS_by_size (bytes : Z) :
  ((bytes <= 1024 * 1024)%Z -> timeoutS bytes = 120%Z)
  /\ ((1024 * 1024 < bytes < 2 ^ 60)%Z ->
      timeoutS bytes = (bytes / 12800)%Z
      /\ ((timeoutS bytes < 120)%Z <-> (bytes < 1536000)%Z)).
Proof.
  unfold timeoutS. split.
  - intros Hsmall. destruct (Z.leb_spec bytes (1024 * 1024)); [reflexivity|lia].
  - intros [Hlow Hhigh]. destruct (Z.leb_spec bytes (1024 * 1024)); [lia|].
    assert (Hwrap : wrap_int64 (bytes * 8) = (bytes * 8)%Z).
    { unfold wrap_int64. rewrite Z.mod_small by lia. lia. }
    assert (Heq : ((wrap_int64 (bytes * 8) ÷ 1024 ÷ 100) mod 2 ^ 64 = bytes / 12800)%Z).
    { rewrite Hwrap.
      rewrite (Z.quot_div_nonneg (bytes * 8) 1024) by lia.
      rewrite Z.quot_div_nonneg by (try apply Z.div_pos; lia).
      rewrite Z.div_div by lia.
      replace (1024 * 100)%Z with (12800 * 8)%Z by reflexivity.
      rewrite Z.div_mul_cancel_r by lia.
      apply Z.mod_small. split; [apply Z.div_pos; lia|].
      apply Z.div_lt_upper_bound; lia. }
    rewrite Heq. split; [reflexivity|]. split.
    + intros Hlt. destruct (Z_lt_ge_dec bytes 1536000) as [Hb|Hb]; [exact Hb|].
      assert (120 <= bytes / 12800)%Z by (apply Z.div_le_lower_bound; lia). lia.
    + intros Hb. apply Z.div_lt_upper_bound; lia.
Qed.

Lemma timeoutS_by_size_witness : timeoutS (1024 * 1024 + 1) = 81%Z.
Proof.
  destruct (timeoutS_by_size (1024 * 1024 + 1)) as [_ Hbig].
  destruct Hbig as [Heq _]; [lia|]. rewrite Heq. reflexivity.
Defined.

(** ** The base of the Pkg URL *)

Lemma split_slash_nonempty (s : string) : split_slash s ≠ [].
Proof.
  destruct s as [|c s]; cbn; [discriminate|].
  destruct (Ascii.eqb c "/"); [discriminate|]. destruct (split_slash s); discriminate.
Qed.

Lemma join_slash_split_slash (s : string) : join_slash (split_slash s) = s.
Proof.
  induction s as [|c s IH]; [reflexivity|]. cbn [split_slash].
  pose proof (split_slash_nonempty s) as Hne.
  destruct (Ascii.eqb c "/") eqn:Hc.
  - apply Ascii.eqb_eq in Hc. subst c.
    destruct (split_slash s) as [|x xs]; [contradiction|].
    change (join_slash ("" :: x :: xs)) with ("" ++ "/" ++ join_slash (x :: xs)).
    rewrite IH. reflexivity.
  - destruct (split_slash s) as [|x xs]; [contradiction|].
    destruct xs as [|y ys]; [cbn in *; congruence|].
    change (join_slash (String c x :: y :: ys))
      with (String c (x ++ "/" ++ join_slash (y :: ys))).
    change (join_slash (x :: y :: ys)) with (x ++ "/" ++ join_slash (y :: ys)) in IH.
    rewrite IH. reflexivity.
Qed.

(** Joining what strings.Split gave returns the string. *)
Theorem join_split_slash (s : string) : join_slash (split_slash s) = s.
Proof. apply join_slash_split_slash. Qed.

Lemma split_slash_app (a b : string) :
  split_slash (a ++ "/" ++ b) = (split_slash a ++ split_slash b)%list.
Proof.
  induction a as [|c a IH]; [reflexivity|].
  change (String c a ++ "/" ++ b) with (String c (a ++ "/" ++ b)).
  cbn [split_slash]. rewrite IH.
  pose proof (split_slash_nonempty a) as Hne.
  destruct (Ascii.eqb c "/"); [reflexivity|].
  destruct (split_slash a) as [|x xs]; [contradiction|reflexivity].
Qed.

Lemma split_slash_segment (s : string) :
  (forall c, In c (String.list_ascii_of_string s) -> c ≠ "/"%char) -> split_slash s = [s].
Proof.
  induction s as [|c s IH]; intros Hfree; [reflexivity|].
  cbn [split_slash]. destruct (Ascii.eqb c "/") eqn:Hc.
  - apply Ascii.eqb_eq in Hc. exfalso. apply (Hfree c); [left; reflexivity|exact Hc].
  - rewrite IH; [reflexivity|]. intros c' Hin. apply Hfree. right. exact Hin.
Qed.

(** X19: the base that PkgFetch takes from the Pkg URL (split at the slashes,
    drop the last segment, join again) is the URL without its last slash
    and what follows it. *)
Theorem pkgURLBase_drops_last_segment (base file : string) :
  (forall c, In c (String.list_ascii_of_string file) -> c ≠ "/"%char) ->
  let pkgURLParts := split_slash (base ++ "/" ++ file) in
  join_slash (take (length pkgURLParts - 1) pkgURLParts) = base.
Proof.
  intros Hfree. cbv zeta. rewrite split_slash_app, (split_slash_segment file Hfree).
  rewrite length_app. cbn [length].
  replace (length (split_slash base) + 1 - 1) with (length (split_slash base)) by lia.
  rewrite take_app_length. apply join_slash_split_slash.
Qed.

Lemma pkgURLBase_drops_last_segment_witness :
  join_slash (take (length (split_slash ("http://h/pkg" ++ "/" ++ "m.json")) - 1)
                (split_slash ("http://h/pkg" ++ "/" ++ "m.json"))) = "http://h/pkg".
Proof.
  apply (pkgURLBase_drops_last_segment "http://h/pkg" "m.json").
  intros c Hin. cbn in Hin.
  destruct Hin as [<-|[<-|[<-|[<-|[<-|[<-|[]]]]]]]; discriminate.
Defined.

(** ** The orchestrator, continued *)

Section Recorder.
Variable H : Host.
Variable authCreds : list (string * gmap string string).
Variable pkgURLBase : string.
Variable parts : gmap string DockerImagePart.
Variable destinationDir primarySigningKey userKeysDir : string.

Local Abbreviation step1 :=
  (step H authCreds pkgURLBase parts destinationDir primarySigningKey userKeysDir).
Local Abbreviation run1 :=
  (run H authCreds pkgURLBase parts destinationDir primarySigningKey userKeysDir).
Local Abbreviation joined1 :=
  (joined H authCreds pkgURLBase parts destinationDir primarySigningKey userKeysDir).
Local Abbreviation fetchAll :=
  (fetchAndVerify H authCreds pkgURLBase parts destinationDir primarySigningKey userKeysDir).

Lemma step_errors_stay (name : string) (st : Orchestration) :
  fetchErrs st ≠ ∅ -> fetchErrs (step1 name st) ≠ ∅.
Proof.
  intros Hne.
  destruct (step_effect H authCreds pkgURLBase parts destinationDir primarySigningKey
              userKeysDir name st)
    as [(_ & He & _) | (s0 & s1 & _ & _ & _ & [Herr | [(_ & He & _) | (_ & He & _)]])];
    try rewrite He; assumption.
Qed.

Lemma step_error_keys (name : string) (st : Orchestration) :
  (forall id, is_Some (fetchErrs st !! id) -> is_Some (parts !! id)) ->
  forall id, is_Some (fetchErrs (step1 name st) !! id) -> is_Some (parts !! id).
Proof.
  intros Hkeys id. unfold step. destruct (crashed st); [apply Hkeys|].
  destruct (parts !! name) as [part|] eqn:Hpart; [|apply Hkeys].
  assert (Hadd : forall err partPath v,
            is_Some (fetchErrs (addResult H name err partPath (set_world v st)) !! id) ->
            is_Some (parts !! id)).
  { intros err partPath v.
    destruct (addResult_effect H name err partPath (set_world v st))
      as (_ & _ & _ & [[e He] | (_ & He & _)]); rewrite He.
    - destruct (decide (name = id)) as [<-|Hne].
      + intros _. rewrite Hpart. eauto.
      + rewrite lookup_insert_ne by exact Hne. apply Hkeys.
    - apply Hkeys. }
  destruct (stages st !! name) as [[| | |]|]; try apply Hkeys.
  - destruct (fetchPkgPart H _ authCreds pkgURLBase _ _ _ (world st)) as [[err|] v].
    + apply Hadd.
    + apply Hkeys.
  - case_bool_decide; apply Hkeys.
  - destruct (verifyPkgPart H primarySigningKey userKeysDir _ _ _ (world st)) as [err v].
    apply Hadd.
Qed.

(** X20: the keys of the recorder that fetchAndVerify reports are names of
    parts. *)
Theorem recorded_errors_name_parts (schedule : list string) (w : World) (id : string) :
  is_Some (fetchErrs (joined1 schedule w) !! id) -> is_Some (parts !! id).
Proof.
  revert id.
  apply (joined_invariant H authCreds pkgURLBase parts destinationDir primarySigningKey
           userKeysDir
           (fun st => forall id, is_Some (fetchErrs st !! id) -> is_Some (parts !! id))).
  - intros name st. apply step_error_keys.
  - intros id. cbn. rewrite lookup_empty. intros [? [=]].
Qed.

(** X21: an error once recorded is never cleared: if the recorder holds an
    error after some steps, the call does not succeed, whatever the
    remaining steps do. *)
Theorem recorded_error_is_final (schedule1 schedule2 : list string) (w : World)
    (paths : list string) :
  fetchErrs (run1 schedule1 (start parts w)) ≠ ∅ ->
  fst (fetchAll (schedule1 ++ schedule2)%list w) ≠ Returned (paths, None).
Proof.
  intros Hne. unfold fetchAndVerify.
  assert (Hfinal : fetchErrs (joined1 (schedule1 ++ schedule2)%list w) ≠ ∅).
  { unfold joined, wait, run. rewrite foldl_app.
    apply (foldl_invariant (fun st => fetchErrs st ≠ ∅));
      [intros st name Hst; do 3 apply step_errors_stay; exact Hst|].
    apply (foldl_invariant (fun st => fetchErrs st ≠ ∅));
      [intros st name Hst; apply step_errors_stay; exact Hst|].
    exact Hne. }
  destruct (crashed (joined1 (schedule1 ++ schedule2)%list w)); [discriminate|].
  case_bool_decide as Hsize; [discriminate|].
  exfalso. apply Hfinal, map_size_empty_inv. lia.
Qed.

Lemma step_world_frame (name : string) (st : Orchestration) (p : string) :
  (forall n, is_Some (parts !! n) -> p ≠ path_Join H destinationDir n) ->
  files (world (step1 name st)) !! p = files (world st) !! p
  /\ dirs (world (step1 name st)) = dirs (world st).
Proof.
  intros Hp. unfold step. destruct (crashed st); [auto|].
  destruct (parts !! name) as [part|] eqn:Hpart; [|auto].
  assert (Hne : p ≠ path_Join H destinationDir name) by (apply Hp; rewrite Hpart; eauto).
  destruct (stages st !! name) as [[| | |]|]; auto.
  - destruct (fetchPkgPart_effects H (Some (timeoutS (Bytes part))) authCreds pkgURLBase
                (path_Join H destinationDir name) (Bytes part) (Sources part) (world st))
      as ((Hfiles & Hdirs & _) & _).
    destruct (fetchPkgPart H _ authCreds pkgURLBase _ _ _ (world st)) as [[err|] v];
      cbn [fst snd] in *.
    + cbn. destruct (addResult_effect H name err "" (set_world v st)) as (-> & _).
      cbn. auto.
    + cbn. auto.
  - case_bool_decide; auto.
  - destruct (verifyPkgPart_effects H primarySigningKey userKeysDir
                (path_Join H destinationDir name) (Sha256sum part) (Signatures part) (world st))
      as (Hfiles & _ & Hdirs & _).
    destruct (verifyPkgPart H primarySigningKey userKeysDir _ _ _ (world st)) as [err v];
      cbn [fst snd] in *.
    cbn. destruct (addResult_effect H name err (path_Join H destinationDir name)
                     (set_world v st)) as (-> & _).
    cbn. auto.
Qed.

Lemma joined_world_frame (schedule : list string) (w : World) (p : string) :
  (forall n, is_Some (parts !! n) -> p ≠ path_Join H destinationDir n) ->
  files (world (joined1 schedule w)) !! p = files w !! p
  /\ dirs (world (joined1 schedule w)) = dirs w.
Proof.
  intros Hp.
  apply (joined_invariant H authCreds pkgURLBase parts destinationDir primarySigningKey
           userKeysDir
           (fun st => files (world st) !! p = files w !! p /\ dirs (world st) = dirs w)).
  - intros name st [Hf Hd]. destruct (step_world_frame name st p Hp) as [Hf1 Hd1].
    split; congruence.
  - auto.
Qed.

(** X22: fetchAndVerify touches no file but the files of the parts,
    destinationDir joined with a part name, and makes no directory,
    whatever the schedule and the outcome. *)
Theorem fetchAndVerify_frame (schedule : list string) (w : World) (p : string) :
  (forall n, is_Some (parts !! n) -> p ≠ path_Join H destinationDir n) ->
  files (snd (fetchAll schedule w)) !! p = files w !! p
  /\ dirs (snd (fetchAll schedule w)) = dirs w.
Proof.
  intros Hp. destruct (joined_world_frame schedule w p Hp) as [Hf Hd].
  unfold fetchAndVerify. destruct (crashed (joined1 schedule w)); [auto|].
  case_bool_decide; auto.
Qed.

End Recorder.

Lemma recorded_errors_name_parts_witness : is_Some (two_parts !! "p2").
Proof.
  apply (recorded_errors_name_parts pkg_host [] "http://h/pkg" two_parts "/d" "key" "keys"
           ["p2"] no_files "p2").
  vm_compute. eexists. reflexivity.
Defined.

Lemma recorded_error_is_final_witness :
  fst (fetchAndVerify pkg_host [] "http://h/pkg" two_parts "/d" "key" "keys"
         (["p2"] ++ ["p1"; "p1"; "p1"])%list no_files) ≠ Returned (["/d/p1"], None).
Proof.
  apply (recorded_error_is_final pkg_host [] "http://h/pkg" two_parts "/d" "key" "keys"
           ["p2"] ["p1"; "p1"; "p1"] no_files ["/d/p1"]).
  vm_compute. intros Heq. discriminate Heq.
Defined.

Lemma fetchAndVerify_frame_witness :
  files (snd (fetchAndVerify pkg_host [] "http://h/pkg" two_parts "/d" "key" "keys" []
                {| files := {["/d/m.json" := abc]}; dirs := ∅; requests := [];
                   sigchecks := [] |})) !! "/d/m.json" = Some abc.
Proof.
  pose (w := {| files := {["/d/m.json" := abc]}; dirs := ∅; requests := []; sigchecks := [] |}).
  destruct (fetchAndVerify_frame pkg_host [] "http://h/pkg" two_parts "/d" "key" "keys" [] w
              "/d/m.json") as [Hfile _].
  - intros n [part Hpart].
    destruct (decide (n = "p1")) as [->|Hn1]; [discriminate|].
    destruct (decide (n = "p2")) as [->|Hn2]; [discriminate|].
    unfold two_parts in Hpart. rewrite !lookup_insert_ne, lookup_empty in Hpart by congruence.
    discriminate.
  - refine (eq_trans Hfile _). reflexivity.
Defined.

(** X23: with no part, fetchAndVerify returns no path and no error and leaves
    the world as it was, whatever names the schedule carries. *)
Theorem fetchAndVerify_no_parts (H : Host) (authCreds : list (string * gmap string string))
    (pkgURLBase destinationDir primarySigningKey userKeysDir : string)
    (schedule : list string) (w : World) :
  fetchAndVerify H authCreds pkgURLBase ∅ destinationDir primarySigningKey userKeysDir
    schedule w = (Returned ([], None), w).
Proof.
  assert (Hjoined : joined H authCreds pkgURLBase ∅ destinationDir primarySigningKey
                      userKeysDir schedule w = start ∅ w).
  { apply (joined_invariant H authCreds pkgURLBase ∅ destinationDir primarySigningKey
             userKeysDir (fun st => st = start ∅ w)); [|reflexivity].
    intros name st ->. unfold step. cbn. rewrite lookup_empty. reflexivity. }
  unfold fetchAndVerify. rewrite Hjoined. cbn.
  rewrite bool_decide_false; [reflexivity|]. rewrite map_size_empty. lia.
Qed.

(** X27: whenever fetchAndVerify returns, its result is decided by the
    recorder as it is when group.Wait() returns.  With an error recorded
    the result is nil paths and the error that carries the whole recorder;
    with none it is no error and the absolute paths of all the parts, in
    the order their goroutines finished.  An error never comes with
    paths. *)
Theorem fetchAndVerify_result_by_recorder (H : Host)
    (authCreds : list (string * gmap string string)) (pkgURLBase : string)
    (parts : gmap string DockerImagePart)
    (destinationDir primarySigningKey userKeysDir : string)
    (schedule : list string) (w : World) (paths : list string) (err : option error) :
  fst (fetchAndVerify H authCreds pkgURLBase parts destinationDir primarySigningKey
         userKeysDir schedule w) = Returned (paths, err) ->
  let st := joined H authCreds pkgURLBase parts destinationDir primarySigningKey userKeysDir
              schedule w in
  (fetchErrs st ≠ ∅ ->
     paths = []
     /\ err = Some (Errorf "Error fetching parts. Errors: %v" [ORecorder (fetchErrs st)]))
  /\ (fetchErrs st = ∅ ->
      err = None
      /\ exists names : list string,
           names ≡ₚ (map_to_list parts).*1
           /\ paths = flat_map (verified_path H destinationDir) names
           /\ forall n, n ∈ names -> path_Join H destinationDir n ≠ "" ->
                exists abs, filepath_Abs H (path_Join H destinationDir n) = inl abs)
  /\ (err ≠ None -> paths = []).
Proof.
  intros Hres st. revert Hres. unfold fetchAndVerify. fold st.
  destruct (crashed st) eqn:Hcrashed; cbn [fst]; [discriminate|].
  case_bool_decide as Hsize; cbn [fst]; intros [= <- <-].
  - split; [auto|]. split; [|auto].
    intros Hempty. rewrite Hempty, map_size_empty in Hsize. lia.
  - assert (Hempty : fetchErrs st = ∅) by (apply map_size_empty_inv; lia).
    split; [intros Hne; contradiction|]. split; [|intros Hne; contradiction].
    intros _. split; [reflexivity|].
    destruct (joined_settled H authCreds pkgURLBase parts destinationDir primarySigningKey
                userKeysDir schedule w Hempty) as (names & Hnd & Hin & Hpaths & Habs).
    exists names. split; [|split; assumption].
    apply NoDup_Permutation; [exact Hnd|apply NoDup_fst_map_to_list|].
    intros n. rewrite Hin, elem_of_part_names. split.
    + intros Hn.
      apply (proj1 (joined_goroutines H authCreds pkgURLBase parts destinationDir
                      primarySigningKey userKeysDir schedule w n)).
      exists Finished. exact Hn.
    + intros Hn. apply joined_finished; assumption.
Qed.

Lemma fetchAndVerify_result_by_recorder_witness :
  exists names : list string,
    names ≡ₚ (map_to_list (delete "p2" two_parts)).*1
    /\ ["/d/p1"] = flat_map (verified_path pkg_host "/d") names.
Proof.
  destruct (fetchAndVerify_result_by_recorder pkg_host [] "http://h/pkg" (delete "p2" two_parts)
              "/d" "key" "keys" [] no_files ["/d/p1"] None) as (_ & Hnone & _).
  - vm_compute. reflexivity.
  - destruct Hnone as (_ & names & Hperm & Hpaths & _); [vm_compute; reflexivity|].
    exists names. split; [exact Hperm|exact Hpaths].
Defined.

(** X28: on a host that answers every request with a response and never
    refuses to open or create a file, fetchAndVerify returns, in every
    schedule: no goroutine meets the nil response of a failed request or
    the nil file of a refused open, the two places where fetchPkgPart
    panics. *)
Theorem fetchAndVerify_returns (H : Host)
    (authCreds : list (string * gmap string string)) (pkgURLBase : string)
    (parts : gmap string DockerImagePart)
    (destinationDir primarySigningKey userKeysDir : string)
    (schedule : list string) (w : World) :
  always_responds H ->
  opens_part_files H ->
  exists (paths : list string) (err : option error),
    fst (fetchAndVerify H authCreds pkgURLBase parts destinationDir primarySigningKey
           userKeysDir schedule w) = Returned (paths, err).
Proof.
  intros Hresp Hopen. unfold fetchAndVerify.
  rewrite joined_no_crash by assumption.
  case_bool_decide; cbn [fst]; eauto.
Qed.

Lemma fetchAndVerify_returns_witness :
  exists (paths : list string) (err : option error),
    fst (fetchAndVerify mirror_host [] "http://h/pkg" two_parts "/d" "key" "keys" ["p2"]
           no_files) = Returned (paths, err).
Proof.
  apply (fetchAndVerify_returns mirror_host [] "http://h/pkg" two_parts "/d" "key" "keys"
           ["p2"] no_files).
  - intros timeout req err. discriminate.
  - intros path. reflexivity.
Defined.

(** ** The entry point, continued *)







(** X26: when a part of a verified manifest has no entry in Images under its
    ID, PkgFetch fails with the precheck error after the manifest has been
    written: the world is the one fetchPkgMeta left, with the manifest file
    on disk, the directory of the package not made and no part asked
    for. *)
Theorem PkgFetch_precheck_failure (H : Host) (schedule : list string)
    (pkgURL pkgURLSignature destinationDir primarySigningKey userKeysDir : string)
    (authCreds : list (string * gmap string string)) (w w1 : World) (pkg : Pkg)
    (name : string) (part : DockerImagePart) :
  pkgURLSignature ≠ "" ->
  fs_fault H OpMkdirAll destinationDir = None ->
  fetchPkgMeta H None authCreds primarySigningKey userKeysDir pkgURL pkgURLSignature
    destinationDir (add_dir destinationDir w) = (inl pkg, w1) ->
  Parts pkg !! name = Some part ->
  Images pkg !! PartID part = None ->
  let r := PkgFetch H schedule pkgURL pkgURLSignature destinationDir primarySigningKey
             userKeysDir authCreds w in
  (exists perr,
      fst r = Returned ([], Some (PkgPrecheckError
                "Failed to validate Pkg information before fetching" [] perr)))
  /\ snd r = w1
  /\ is_Some (files (snd r) !! path_Join H destinationDir (ID pkg ++ ".json"))
  /\ dirs (snd r) = {[destinationDir]} ∪ dirs w
  /\ requests (snd r)
     = (requests w
        ++ [(None, {| reqURL := pkgURL; BasicAuth := basicAuthFor pkgURL authCreds |})])%list.
Proof.
  intros Hsig Hmkdir Hmeta Hpart Himage r.
  assert (Hrun : exists perr,
            r = (Returned ([], Some (PkgPrecheckError
                   "Failed to validate Pkg information before fetching" [] perr)), w1)).
  { subst r. unfold PkgFetch, os_MkdirAll.
    rewrite bool_decide_false by exact Hsig. rewrite Hmkdir, Hmeta.
    unfold precheckPkgParts.
    pose proof (precheckParts_result (Images pkg) (map_to_list (Parts pkg))) as Hres.
    destruct (precheckParts (Images pkg) (map_to_list (Parts pkg))) as [perr|]; [eauto|].
    exfalso. destruct (Hres name part) as [tag Htag]; [|congruence].
    apply elem_of_map_to_list. exact Hpart. }
  destruct Hrun as [perr Hrun]. rewrite Hrun. cbn [fst snd].
  destruct (fetchPkgMeta_success_effects H None authCreds primarySigningKey userKeysDir
              pkgURL pkgURLSignature destinationDir (add_dir destinationDir w) w1 pkg Hmeta)
    as (response & _ & _ & _ & _ & Hfile & _ & Hreq & _ & Hdirs).
  split; [eauto|]. split; [reflexivity|].
  split; [rewrite Hfile; eauto|]. split; [exact Hdirs|exact Hreq].
Qed.

Lemma PkgFetch_precheck_failure_witness :
  let bare := {| ID := "m"; Images := ∅; Parts := delete "p2" two_parts |} in
  let host := {|
    NewRequest := NewRequest manifest_host; client_Do := client_Do manifest_host;
    sha256_Sum := sha256_Sum manifest_host; VerifyWorkload := VerifyWorkload manifest_host;
    json_Unmarshal := fun _ => inl bare; path_Join := path_Join manifest_host;
    filepath_Abs := filepath_Abs manifest_host; fs_fault := fs_fault manifest_host |} in
  requests (snd (PkgFetch host [] "http://h/pkg/m.json" "good" "/d" "key" "keys" [] no_files))
  = [(None, {| reqURL := "http://h/pkg/m.json"; BasicAuth := None |})].
Proof.
  intros bare host.
  destruct (PkgFetch_precheck_failure host [] "http://h/pkg/m.json" "good" "/d" "key" "keys" []
              no_files
              (snd (fetchPkgMeta host None [] "key" "keys" "http://h/pkg/m.json" "good" "/d"
                      (add_dir "/d" no_files)))
              bare "p1"
              {| PartID := "p1"; Bytes := 3; Sha256sum := "616263"; Signatures := ["good"];
                 Sources := [{| URL := "/p1" |}] |})
    as (_ & _ & _ & _ & Hreq).
  - discriminate.
  - reflexivity.
  - vm_compute. reflexivity.
  - vm_compute. reflexivity.
  - reflexivity.
  - exact Hreq.
Defined.
